(** * docker.api.client: the low-level API client

    A shallow embedding of [docker/api/client.py] (class [APIClient]):
    session construction and version negotiation, URL construction, JSON
    posting, stream-mode selection, the two multiplexed-stream decoders and
    the socket-timeout helper, with the properties the specification states
    about them. *)

From Stdlib Require Import ZArith QArith List Lia String Ascii Bool.
From Stdlib.Strings Require Import Byte.
From stdpp Require Import base option list strings gmap.

Set Warnings "-register-all".
Local Open Scope Z_scope.

(** ** Python values shared by the whole client *)

(** [bytes] objects. *)
Definition bytes := list byte.

(** The exceptions the client raises or lets through. *)
Inductive exn :=
| TLSParameterError (msg : string)
| DockerException (msg : string)
| APIError (msg : string)
| StructError
| ValueError (msg : string)
| KeyError (key : string)
| TypeError (msg : string)
| AttributeError (name : string).

(** A call either raises or returns. *)
Definition result (A : Type) : Type := exn + A.

(** A generator, run to exhaustion: the values it yielded, in order, and the
    exception that ended it, if one did. *)
Record gen (A : Type) := Gen { yielded : list A; raised : option exn }.
Arguments Gen {A} _ _.
Arguments yielded {A} _.
Arguments raised {A} _.

Definition gen_return {A} : gen A := Gen [] None.
Definition gen_raise {A} (e : exn) : gen A := Gen [] (Some e).
Definition gen_yield {A} (x : A) (g : gen A) : gen A :=
  Gen (x :: yielded g) (raised g).
Definition gen_map {A B} (f : A -> B) (g : gen A) : gen B :=
  Gen (map f (yielded g)) (raised g).

(** ** Byte strings: slicing and [struct] *)

Module Py.

(** How Python resolves one bound of a slice against a sequence of length
    [len]: negative bounds count from the end, and both are clamped. *)
Definition slice_bound (len i : Z) : Z :=
  if i <? 0 then Z.max 0 (len + i) else Z.min len i.

(** [buf[lo:hi]]. *)
Definition slice {A} (buf : list A) (lo hi : Z) : list A :=
  let len := Z.of_nat (length buf) in
  let lo' := slice_bound len lo in
  let hi' := slice_bound len hi in
  take (Z.to_nat (hi' - lo')) (drop (Z.to_nat lo') buf).

(** The value of one byte, as [B] unpacks it. *)
Definition byte_val (b : byte) : Z := Z.of_N (Byte.to_N b).

(** Four bytes read as [>L]: big-endian, unsigned. *)
Definition be32 (b0 b1 b2 b3 : byte) : Z :=
  Z.lor (Z.shiftl (byte_val b0) 24)
    (Z.lor (Z.shiftl (byte_val b1) 16)
       (Z.lor (Z.shiftl (byte_val b2) 8) (byte_val b3))).

(** [struct.unpack_from('>BxxxL', buffer)]: reads the first 8 bytes of a
    buffer that has at least 8. *)
Definition unpack_from_BxxxL (buffer : bytes) : result (Z * Z) :=
  match buffer with
  | c :: _ :: _ :: _ :: l0 :: l1 :: l2 :: l3 :: _ =>
      inr (byte_val c, be32 l0 l1 l2 l3)
  | _ => inl StructError
  end.

(** [struct.unpack('>BxxxL', buffer)]: the buffer must have exactly 8
    bytes. *)
Definition unpack_BxxxL (buffer : bytes) : result (Z * Z) :=
  match buffer with
  | [c; _; _; _; l0; l1; l2; l3] => inr (byte_val c, be32 l0 l1 l2 l3)
  | _ => inl StructError
  end.

(** The byte with value [n mod 256]. *)
Definition byte_of_Z (n : Z) : byte :=
  default x00 (Byte.of_N (Z.to_N (n mod 256))).

(** [struct.pack('>L', n)] for [0 <= n < 2^32]. *)
Definition pack_be32 (n : Z) : bytes :=
  [byte_of_Z (Z.shiftr n 24); byte_of_Z (Z.shiftr n 16);
   byte_of_Z (Z.shiftr n 8); byte_of_Z n].

(** Truth value of a [bytes] object. *)
Definition truthy_bytes (b : bytes) : bool :=
  match b with [] => false | _ => true end.

End Py.

(** ** Responses *)

(** Modelled from the spec: [STREAM_HEADER_SIZE_BYTES] of
    [docker.constants], which is not under src/, is the size of the 8-byte
    frame header, the one [>BxxxL] describes. *)
Definition STREAM_HEADER_SIZE_BYTES : Z := 8.

(** The body of a streamed response, as [response.raw] sees it: the bytes
    not read yet.  [read amt] blocks until [amt] bytes have arrived or the
    peer has closed, so it returns fewer than [amt] bytes only at the end of
    the body, and nothing once the body is exhausted. *)
Definition reader := bytes.

Definition read (raw : reader) (amt : Z) : bytes * reader :=
  (take (Z.to_nat amt) raw, drop (Z.to_nat amt) raw).

(** ** Python objects the client handles *)

(** JSON-like values: what [json.dumps] accepts and [response.json()]
    returns. *)
Inductive pyvalue :=
| PNone
| PBool (b : bool)
| PInt (n : Z)
| PStr (s : string)
| PList (l : list pyvalue)
| PDict (d : gmap string pyvalue).

Definition is_None (v : pyvalue) : bool :=
  match v with PNone => true | _ => false end.

(** A socket-like object: whether it has the [settimeout] and [gettimeout]
    attributes, its current timeout ([None]: blocking for ever, [0]:
    non-blocking, otherwise the seconds a read may block), and its [_sock]
    attribute when it has one. *)
Inductive pysocket := PySocket {
  has_settimeout : bool;
  has_gettimeout : bool;
  sock_timeout : option Q;
  _sock : option pysocket
}.

(** An HTTP response: the error [raise_for_status()] raises for a non-2xx
    status; the body as [content] (which [response.raw] reads piece by
    piece, from the start), as [text] and as [json()]; the lines and the
    pieces [requests] cuts it into; and the socket-like objects behind
    [response.raw._fp.fp]: its [raw], its [raw.sock] and its [_sock]. *)
Record response := Response {
  http_error : option string;
  content : bytes;
  text : string;
  json : result pyvalue;
  (** what [iter_lines(chunk_size=1, decode_unicode=True)] yields *)
  iter_lines : list string;
  (** what [iter_content(chunk_size=1, decode_unicode=True)] yields *)
  iter_content : list bytes;
  fp_raw : pysocket;
  fp_raw_sock : pysocket;
  fp__sock : pysocket
}.

(** ** The session and its environment *)

(** A [docker.tls.TLSConfig] object, kept abstract: only its identity is
    used here. *)
Record TLSConfig := { tls_config_id : Z }.

(** The [tls] argument of the constructor: a [bool] or a [TLSConfig]. *)
Inductive tls_arg :=
| TlsBool (b : bool)
| TlsConfig (c : TLSConfig).

(** Truth value of the [tls] argument; a [TLSConfig] object is true. *)
Definition tls_truthy (t : tls_arg) : bool :=
  match t with TlsBool b => b | TlsConfig _ => true end.

(** The [version] argument of the constructor: [None], a string, or an
    object of another type, of which only the type's name matters. *)
Inductive version_arg :=
| VersionNone
| VersionStr (s : string)
| VersionOther (type_name : string).

(** Transport adapters mounted on a session. *)
Inductive adapter :=
| HTTPAdapter
| UnixAdapter (url : string) (timeout : Z) (pool_connections : Z)
| NpipeAdapter (url : string) (timeout : Z) (pool_connections : Z)
| SSLAdapter (pool_connections : Z).

(** [self] as far as this module reads and writes it. *)
Record APIClient := Client {
  base_url : string;
  timeout : Z;
  headers : gmap string string;
  _auth_configs : pyvalue;
  _custom_adapter : option adapter;
  adapters : gmap string adapter;
  _version : string
}.

(** Attribute assignments on [self]. *)
Definition set_base_url (v : string) (self : APIClient) : APIClient :=
  Client v (timeout self) (headers self) (_auth_configs self)
         (_custom_adapter self) (adapters self) (_version self).
Definition set_timeout (v : Z) (self : APIClient) : APIClient :=
  Client (base_url self) v (headers self) (_auth_configs self)
         (_custom_adapter self) (adapters self) (_version self).
Definition set_headers (v : gmap string string) (self : APIClient)
  : APIClient :=
  Client (base_url self) (timeout self) v (_auth_configs self)
         (_custom_adapter self) (adapters self) (_version self).
Definition set_auth_configs (v : pyvalue) (self : APIClient) : APIClient :=
  Client (base_url self) (timeout self) (headers self) v
         (_custom_adapter self) (adapters self) (_version self).
Definition set_custom_adapter (v : adapter) (self : APIClient) : APIClient :=
  Client (base_url self) (timeout self) (headers self) (_auth_configs self)
         (Some v) (adapters self) (_version self).
Definition set_adapters (v : gmap string adapter) (self : APIClient)
  : APIClient :=
  Client (base_url self) (timeout self) (headers self) (_auth_configs self)
         (_custom_adapter self) v (_version self).
Definition set_version (v : string) (self : APIClient) : APIClient :=
  Client (base_url self) (timeout self) (headers self) (_auth_configs self)
         (_custom_adapter self) (adapters self) v.

(** [self.mount(prefix, adapter)] *)
Definition mount (prefix : string) (a : adapter) (self : APIClient)
  : APIClient :=
  set_adapters (<[prefix := a]> (adapters self)) self.

(** The keyword arguments of a request: [headers], [timeout], [data], and
    the others ([params], [stream], ...) by name. *)
Record kwargs := Kwargs {
  kw_headers : option (gmap string string);
  kw_timeout : option Z;
  kw_data : option string;
  kw_others : gmap string pyvalue
}.

(** What a call does to the outside world: requests sent to the daemon and
    warnings passed to [warnings.warn]. *)
Inductive event :=
| NetworkCall (method url : string)
| Warning (msg : string).

(** The modules and constants [client.py] imports and that are not part of
    it, with the daemon at the other end of the transport. *)
Record Env := {
  DEFAULT_TIMEOUT_SECONDS : Z;
  DEFAULT_USER_AGENT : string;
  IS_WINDOWS_PLATFORM : bool;
  DEFAULT_DOCKER_API_VERSION : string;
  DEFAULT_NUM_POOLS : Z;
  MINIMUM_DOCKER_API_VERSION : string;
  (** [six.PY3] *)
  PY3 : bool;
  (** whether [from ..transport import NpipeAdapter] succeeded *)
  NpipeAdapter_imported : bool;
  (** [auth.load_config()] *)
  load_config : pyvalue;
  (** [utils.parse_host(addr, is_win32, tls)] *)
  parse_host : option string -> bool -> bool -> result string;
  (** [tls.configure_client(client)] *)
  configure_client : TLSConfig -> APIClient -> APIClient;
  (** [six.moves.urllib.parse.quote_plus(s, safe="/:")] *)
  quote_plus : string -> string;
  (** [pathfmt.format( *args)] *)
  str_format : string -> list string -> result string;
  (** [json.dumps] *)
  json_dumps : pyvalue -> string;
  (** the path of the version-discovery endpoint *)
  version_endpoint : string;
  (** [str(e)] for an exception, [str(v)] and [type(v)] for a value *)
  str_exn : exn -> string;
  str_value : pyvalue -> string;
  type_name : pyvalue -> string;
  (** the headers of a fresh [requests.Session] *)
  default_headers : gmap string string;
  (** what the [update_headers] decorator does to the keyword arguments *)
  update_headers : APIClient -> kwargs -> kwargs;
  (** [requests.Session.request(method, url, **kwargs)]: the daemon's
      response, or the transport's failure *)
  request : string -> string -> kwargs -> result response
}.

(** The warnings and the requests of a trace. *)
Definition warnings (log : list event) : list string :=
  omap (fun ev => match ev with Warning msg => Some msg | _ => None end) log.

Definition network_calls (log : list event) : list (string * string) :=
  omap (fun ev => match ev with
                  | NetworkCall method url => Some (method, url)
                  | _ => None
                  end) log.

(** Computations that may raise and that leave a trace of events. *)
Definition M (A : Type) : Type := list event -> result A * list event.

Definition ret {A} (x : A) : M A := fun log => (inr x, log).
Definition raise {A} (e : exn) : M A := fun log => (inl e, log).
Definition emit (ev : event) : M unit := fun log => (inr tt, log ++ [ev]).
Definition lift {A} (r : result A) : M A := fun log => (r, log).
Definition bind {A B} (m : M A) (k : A -> M B) : M B :=
  fun log =>
    match m log with
    | (inl e, log') => (inl e, log')
    | (inr x, log') => k x log'
    end.

Notation "'do' x <- m ; k" := (bind m (fun x => k))
  (at level 10, x name, m at level 100, k at level 200).
Notation "'do_' m ; k" := (bind m (fun _ => k))
  (at level 10, m at level 100, k at level 200).

(** ** Strings *)

(** The double-quote character, as a string. *)
Definition dquote : string := String (ascii_of_nat 34) EmptyString.

(** [s.lower()], on ASCII. *)
Definition lower_ascii (a : ascii) : ascii :=
  let n := nat_of_ascii a in
  if ((65 <=? n) && (n <=? 90))%nat then ascii_of_nat (n + 32) else a.

Fixpoint lower (s : string) : string :=
  match s with
  | EmptyString => EmptyString
  | String a s' => String (lower_ascii a) (lower s')
  end.

(** Truth value of an optional string: [None] and [''] are false. *)
Definition str_truthy (s : option string) : bool :=
  match s with
  | Some (String _ _) => true
  | _ => false
  end.

(** ** Version comparison *)

Module utils.

(** [s.split(sep)] for a one-character separator. *)
Fixpoint split (sep : ascii) (s : string) : list string :=
  match s with
  | EmptyString => [EmptyString]
  | String a s' =>
      if Ascii.eqb a sep then EmptyString :: split sep s'
      else
        match split sep s' with
        | w :: ws => String a w :: ws
        | [] => [String a EmptyString]
        end
  end.

Definition digit (a : ascii) : option N :=
  let n := N_of_ascii a in
  if ((48 <=? n) && (n <=? 57))%N then Some (n - 48)%N else None.

Fixpoint number_from (acc : N) (s : string) : option N :=
  match s with
  | EmptyString => Some acc
  | String a s' =>
      match digit a with
      | Some d => number_from (acc * 10 + d)%N s'
      | None => None
      end
  end.

(** A non-empty run of decimal digits. *)
Definition number (s : string) : option N :=
  match s with
  | EmptyString => None
  | _ => number_from 0%N s
  end.

(** Modelled from the spec: the version helpers of [docker.utils]
    ([compare_version], [version_lt]) are not under src/.  The protocol
    versions the spec orders ("older", "preceding") are dotted decimal
    numbers, [major.minor] or [major.minor.patch], compared number by
    number; a missing patch number counts as 0. *)
Definition parse_version (v : string) : option (N * N * N) :=
  match split "." v with
  | [a; b] =>
      match number a, number b with
      | Some major, Some minor => Some (major, minor, 0%N)
      | _, _ => None
      end
  | [a; b; c] =>
      match number a, number b, number c with
      | Some major, Some minor, Some patch => Some (major, minor, patch)
      | _, _, _ => None
      end
  | _ => None
  end.

Definition compare_parsed (s1 s2 : N * N * N) : comparison :=
  let '(a1, b1, c1) := s1 in
  let '(a2, b2, c2) := s2 in
  match (a1 ?= a2)%N with
  | Eq => match (b1 ?= b2)%N with
          | Eq => (c1 ?= c2)%N
          | o => o
          end
  | o => o
  end.

(** Modelled from the spec: [compare_version(v1, v2)], not under src/, is
    0 when the versions are equal, negative when [v2] precedes [v1] and
    positive when [v1] precedes [v2]; this is the reading under which the
    test [compare_version('1.6', self._version) < 0] selects the versions
    "before" 1.6, as the comment above it says.  A string that is not a
    version raises. *)
Definition compare_version (v1 v2 : string) : result Z :=
  match parse_version v1, parse_version v2 with
  | Some s1, Some s2 =>
      match compare_parsed s1 s2 with
      | Eq => inr 0
      | Gt => inr (-1)
      | Lt => inr 1
      end
  | None, _ => inl (ValueError ("invalid version number " +:+ v1))
  | _, None => inl (ValueError ("invalid version number " +:+ v2))
  end.

(** Modelled from the spec: [version_lt(v1, v2)], not under src/, holds
    when [v1] is older than [v2]. *)
Definition version_lt (v1 v2 : string) : result bool :=
  match compare_version v1 v2 with
  | inl e => inl e
  | inr c => inr (0 <? c)
  end.

End utils.

(** ** The client *)

Section Client.

Context (env : Env).

(** *** Results of requests (lines 211-226) *)

(** [_raise_for_status]: the stored HTTP error, translated. *)
Definition _raise_for_status (resp : response) : result unit :=
  match http_error resp with
  | Some msg => inl (APIError msg)
  | None => inr tt
  end.

(** [_result(response, json=True)] *)
Definition _result_json (resp : response) : result pyvalue :=
  match _raise_for_status resp with
  | inl e => inl e
  | inr _ => json resp
  end.

(** [_result(response, binary=True)] *)
Definition _result_binary (resp : response) : result bytes :=
  match _raise_for_status resp with
  | inl e => inl e
  | inr _ => inr (content resp)
  end.

(** [_result(response)] *)
Definition _result_text (resp : response) : result string :=
  match _raise_for_status resp with
  | inl e => inl e
  | inr _ => inr (text resp)
  end.

(** *** The request executor (lines 171-209) *)

(** [_set_request_timeout]: [kwargs.setdefault('timeout', self.timeout)] *)
Definition _set_request_timeout (self : APIClient) (kw : kwargs) : kwargs :=
  match kw_timeout kw with
  | Some _ => kw
  | None =>
      Kwargs (kw_headers kw) (Some (timeout self)) (kw_data kw)
             (kw_others kw)
  end.

(** The four verbs share one shape: the decorator, the default timeout,
    one request. *)
Definition send (method : string) (self : APIClient) (url : string)
    (kw : kwargs) : M response :=
  let kw := _set_request_timeout self (update_headers env self kw) in
  do_ emit (NetworkCall method url);
  lift (request env method url kw).

Definition _post := send "POST".
Definition _get := send "GET".
Definition _put := send "PUT".
Definition _delete := send "DELETE".

(** The strings among the arguments of [_url], or the first argument that
    is not one. *)
Fixpoint string_args (args : list pyvalue) : pyvalue + list string :=
  match args with
  | [] => inr []
  | PStr a :: args' =>
      match string_args args' with
      | inl bad => inl bad
      | inr l => inr (a :: l)
      end
  | bad :: _ => inl bad
  end.

(** [_url(pathfmt, *args, versioned_api=...)] *)
Definition _url (self : APIClient) (pathfmt : string) (args : list pyvalue)
    (versioned_api : bool) : result string :=
  match string_args args with
  | inl arg =>
      inl (ValueError ("Expected a string but found " +:+ str_value env arg
                       +:+ " (" +:+ type_name env arg +:+ ") instead"))
  | inr args =>
      let args := map (quote_plus env) args in
      match str_format env pathfmt args with
      | inl e => inl e
      | inr path =>
          if versioned_api then
            inr (base_url self +:+ "/v" +:+ _version self +:+ path)
          else
            inr (base_url self +:+ path)
      end
  end.

(** *** Version negotiation (lines 137-169) *)

(** Modelled from the spec: [version(api_version=...)] belongs to the
    daemon mixin, which is not under src/.  It issues a GET to the
    version-discovery endpoint, unversioned when [api_version] is false,
    and returns the JSON result. *)
Definition version (self : APIClient) (api_version : bool) : M pyvalue :=
  do url <- lift (_url self (version_endpoint env) [] api_version);
  do resp <- _get self url (Kwargs None None None ∅);
  lift (_result_json resp).

(** [_retrieve_server_version]: the two [except] clauses turn a missing
    key and any other failure into a [DockerException]. *)
Definition _retrieve_server_version (self : APIClient) : M pyvalue :=
  let missing :=
    DockerException ("Invalid response from docker daemon: key "
                     +:+ dquote +:+ "ApiVersion" +:+ dquote
                     +:+ " is missing.") in
  let failed e :=
    DockerException ("Error while fetching server API version: "
                     +:+ str_exn env e) in
  fun log =>
    match version self false log with
    | (inr (PDict d), log') =>
        match d !! "ApiVersion" with
        | Some v => (inr v, log')
        | None => (inl missing, log')
        end
    | (inr _, log') =>
        (inl (failed (TypeError "object is not subscriptable")), log')
    | (inl (KeyError _), log') => (inl missing, log')
    | (inl e, log') => (inl (failed e), log')
    end.

(** *** Construction (lines 86-156) *)

(** [super().__init__()]: a fresh [requests.Session]. *)
Definition new_session : APIClient :=
  Client "" 0 (default_headers env) PNone None
         {[ "http://" := HTTPAdapter; "https://" := HTTPAdapter ]} "".

(** [_unmount] of each given prefix *)
Definition _unmount (protos : list string) (self : APIClient) : APIClient :=
  set_adapters (foldl (fun m proto => delete proto m) (adapters self) protos)
               self.

(** Lines 102-134: the adapter for the parsed base address. *)
Definition select_transport (url : string) (timeout : Z) (tls : tls_arg)
    (num_pools : Z) (self : APIClient) : M APIClient :=
  if String.prefix "http+unix://" url then
    let a := UnixAdapter url timeout num_pools in
    ret (set_base_url "http+docker://localunixsocket"
           (_unmount ["http://"; "https://"]
              (mount "http+docker://" a (set_custom_adapter a self))))
  else if String.prefix "npipe://" url then
    if negb (IS_WINDOWS_PLATFORM env) then
      raise (DockerException
               "The npipe:// protocol is only supported on Windows")
    else if negb (NpipeAdapter_imported env) then
      raise (DockerException
               "Install pypiwin32 package to enable npipe:// support")
    else
      let a := NpipeAdapter url timeout num_pools in
      ret (set_base_url "http+docker://localnpipe"
             (mount "http+docker://" a (set_custom_adapter a self)))
  else
    let self :=
      match tls with
      | TlsConfig c => configure_client env c self
      | TlsBool true =>
          let a := SSLAdapter num_pools in
          mount "https://" a (set_custom_adapter a self)
      | TlsBool false => self
      end in
    ret (set_base_url url self).

(** Lines 137-149: the version the session will speak. *)
Definition resolve_version (version : version_arg) (self : APIClient)
  : M pyvalue :=
  match version with
  | VersionNone => ret (PStr (DEFAULT_DOCKER_API_VERSION env))
  | VersionStr v =>
      if String.eqb (lower v) "auto" then _retrieve_server_version self
      else ret (PStr v)
  | VersionOther ty =>
      raise (DockerException
               ("Version parameter must be a string or None. Found "
                +:+ ty))
  end.

(** The text of the compatibility warning. *)
Definition minimum_version_warning (v : string) : string :=
  "The minimum API version supported is "
  +:+ MINIMUM_DOCKER_API_VERSION env
  +:+ ", but you are using version " +:+ v
  +:+ ". It is recommended you either upgrade Docker Engine or use an "
  +:+ "older version of Docker SDK for Python.".

(** Lines 150-156: the comparison with the minimum version.  A resolved
    version that is not a string makes the comparison raise. *)
Definition check_minimum_version (v : pyvalue) (self : APIClient)
  : M APIClient :=
  match v with
  | PStr v =>
      do older <- lift (utils.version_lt v (MINIMUM_DOCKER_API_VERSION env));
      do_ (if older : bool then emit (Warning (minimum_version_warning v))
           else ret tt);
      ret (set_version v self)
  | _ => raise (TypeError "expected string or bytes-like object")
  end.

(** Lines 89-134: the TLS check, the attributes of the session and its
    transport. *)
Definition init_transport (base_url : option string) (timeout : Z)
    (tls : tls_arg) (user_agent : string) (num_pools : Z) : M APIClient :=
  let self := new_session in
  if tls_truthy tls && negb (str_truthy base_url) then
    raise (TLSParameterError
             "If using TLS, the base_url argument must be provided.")
  else
    let self := set_timeout timeout self in
    let self :=
      set_headers (<["User-Agent" := user_agent]> (headers self)) self in
    let self := set_auth_configs (load_config env) self in
    do url <- lift (parse_host env base_url (IS_WINDOWS_PLATFORM env)
                      (tls_truthy tls));
    select_transport url timeout tls num_pools self.

(** [APIClient.__init__] *)
Definition __init__ (base_url : option string) (version : version_arg)
    (timeout : Z) (tls : tls_arg) (user_agent : string) (num_pools : Z)
  : M APIClient :=
  do self <- init_transport base_url timeout tls user_agent num_pools;
  do v <- resolve_version version self;
  check_minimum_version v self.

(** *** Posting JSON (lines 228-242) *)

(** The loop over [six.iteritems(data)]: [data2] receives every item whose
    value is not [None]. *)
Definition without_none_items (data : gmap string pyvalue)
  : gmap string pyvalue :=
  map_fold (fun k v data2 => if is_None v then data2 else <[k := v]> data2)
           ∅ data.

(** [data2], as [_post_json] builds it from [data]. *)
Definition post_json_data (data : pyvalue) : pyvalue :=
  match data with
  | PNone => PDict ∅
  | PDict d => PDict (without_none_items d)
  | other => other
  end.

(** The keyword arguments [_post_json] hands to [_post]: its own [kwargs],
    which cannot hold [data] since that is a parameter of [_post_json], with
    the header and the serialised [data2]. *)
Definition post_json_kwargs (data : pyvalue) (kw : kwargs) : kwargs :=
  let data2 := post_json_data data in
  let headers := default ∅ (kw_headers kw) in
  Kwargs (Some (<["Content-Type" := "application/json"]> headers))
         (kw_timeout kw) (Some (json_dumps env data2)) (kw_others kw).

(** [_post_json(url, data, **kwargs)] *)
Definition _post_json (self : APIClient) (url : string) (data : pyvalue)
    (kw : kwargs) : M response :=
  _post self url (post_json_kwargs data kw).

(** *** The raw socket of a response (lines 263-283)

    The back-reference [sock._response] only keeps the response from being
    collected; it has no counterpart here. *)
Definition _get_raw_response_socket (self : APIClient) (resp : response)
  : result pysocket :=
  match _raise_for_status resp with
  | inl e => inl e
  | inr _ =>
      if String.eqb (base_url self) "http+docker://localnpipe" then
        inr (fp_raw_sock resp)
      else if PY3 env then
        let sock := fp_raw resp in
        if String.prefix "https://" (base_url self) then
          match _sock sock with
          | Some inner => inr inner
          | None => inl (AttributeError "_sock")
          end
        else inr sock
      else inr (fp__sock resp)
  end.

(** *** Socket timeouts (lines 367-393) *)

(** [s.settimeout(value)] *)
Definition settimeout (s : pysocket) (value : option Q) : pysocket :=
  PySocket (has_settimeout s) (has_gettimeout s) value (_sock s).

(** One turn of the loop over [sockets]; [None] stands for the missing
    [_sock], which has no [settimeout]. *)
Definition disable_timeout_of (s : option pysocket) : option pysocket :=
  match s with
  | None => None
  | Some s =>
      if negb (has_settimeout s) then Some s
      else
        let timeout := if has_gettimeout s then sock_timeout s
                       else Some (-1)%Q in
        match timeout with
        | None => Some s
        | Some t =>
            if Qeq_bool t 0 then Some s
            else Some (settimeout s None)
        end
  end.

(** [_disable_socket_timeout]: the socket and its [_sock] after the loop. *)
Definition _disable_socket_timeout (socket : pysocket) : pysocket :=
  let sockets := [Some socket; _sock socket] in
  match map disable_timeout_of sockets with
  | [Some socket'; inner'] =>
      PySocket (has_settimeout socket') (has_gettimeout socket')
               (sock_timeout socket') inner'
  | _ => socket
  end.

(** *** Multiplexed streams (lines 307-342) *)

(** The loop of [_multiplexed_buffer_helper], from a given [walker]. *)
Fixpoint buffer_loop (fuel : nat) (buf : bytes) (buf_length walker : Z)
  : option (gen bytes) :=
  match fuel with
  | O => None
  | S fuel' =>
      if buf_length - walker <? STREAM_HEADER_SIZE_BYTES then
        Some gen_return
      else
        let header :=
          Py.slice buf walker (walker + STREAM_HEADER_SIZE_BYTES) in
        match Py.unpack_from_BxxxL header with
        | inl e => Some (gen_raise e)
        | inr (_, len) =>
            let start := walker + STREAM_HEADER_SIZE_BYTES in
            let end_ := start + len in
            gen_yield (Py.slice buf start end_)
              <$> buffer_loop fuel' buf buf_length end_
        end
  end.

(** One chunk of the buffered decoder together with what its turn of the
    loop knew: the [walker] it started from and the [length] its header
    declared. *)
Record frame_read := FrameRead {
  at_walker : Z;
  declared_length : Z;
  chunk : bytes
}.

(** The same loop, keeping for every chunk it yields the [walker] and the
    declared [length] of that turn. *)
Fixpoint buffer_loop_frames (fuel : nat) (buf : bytes)
    (buf_length walker : Z) : option (gen frame_read) :=
  match fuel with
  | O => None
  | S fuel' =>
      if buf_length - walker <? STREAM_HEADER_SIZE_BYTES then
        Some gen_return
      else
        let header :=
          Py.slice buf walker (walker + STREAM_HEADER_SIZE_BYTES) in
        match Py.unpack_from_BxxxL header with
        | inl e => Some (gen_raise e)
        | inr (_, len) =>
            let start := walker + STREAM_HEADER_SIZE_BYTES in
            let end_ := start + len in
            gen_yield (FrameRead walker len (Py.slice buf start end_))
              <$> buffer_loop_frames fuel' buf buf_length end_
        end
  end.

(** [_multiplexed_buffer_helper]; [None] when [fuel] turns of the loop do
    not exhaust the generator. *)
Definition _multiplexed_buffer_helper (fuel : nat) (resp : response)
  : option (gen bytes) :=
  match _result_binary resp with
  | inl e => Some (gen_raise e)
  | inr buf => buffer_loop fuel buf (Z.of_nat (length buf)) 0
  end.

(** The loop of [_multiplexed_response_stream_helper] over what is left of
    [response.raw]. *)
Fixpoint stream_loop (fuel : nat) (raw : reader) : option (gen bytes) :=
  match fuel with
  | O => None
  | S fuel' =>
      let '(header, raw1) := read raw STREAM_HEADER_SIZE_BYTES in
      if negb (Py.truthy_bytes header) then Some gen_return
      else
        match Py.unpack_BxxxL header with
        | inl e => Some (gen_raise e)
        | inr (_, len) =>
            if len =? 0 then stream_loop fuel' raw1
            else
              let '(data, raw2) := read raw1 len in
              if negb (Py.truthy_bytes data) then Some gen_return
              else gen_yield data <$> stream_loop fuel' raw2
        end
  end.

(** [_multiplexed_response_stream_helper]: the chunks it yields, and the
    socket whose timeout it disabled on the way. *)
Definition _multiplexed_response_stream_helper
    (fuel : nat) (self : APIClient) (resp : response)
  : option (gen bytes * option pysocket) :=
  match _get_raw_response_socket self resp with
  | inl e => Some (gen_raise e, None)
  | inr socket =>
      let socket' := _disable_socket_timeout socket in
      g ← stream_loop fuel (content resp);
      Some (g, Some socket')
  end.

(** *** Unframed streams (lines 344-357) *)

(** Truth value of a string. *)
Definition truthy_str (s : string) : bool :=
  match s with EmptyString => false | _ => true end.

(** [_stream_raw_result_old]: the lines of the response, without the empty
    ones. *)
Definition _stream_raw_result_old (resp : response) : gen string :=
  match _raise_for_status resp with
  | inl e => gen_raise e
  | inr _ => Gen (List.filter truthy_str (iter_lines resp)) None
  end.

(** [_stream_raw_result]: the content of the response as it comes. *)
Definition _stream_raw_result (resp : response) : gen bytes :=
  match _raise_for_status resp with
  | inl e => gen_raise e
  | inr _ => Gen (iter_content resp) None
  end.

(** *** Choosing how to read a result (lines 399-418) *)

(** What [_get_result_tty] returns, by the helper that produced it. *)
Inductive stream_result :=
| OldStream (g : gen string)
| RawStream (g : gen bytes)
| RawContent (b : bytes)
| MultiplexedStream (g : gen bytes) (socket : option pysocket)
| MultiplexedContent (b : bytes).

(** [_get_result_tty(stream, res, is_tty)]; [None] when [fuel] turns do
    not exhaust the multiplexed generator. *)
Definition _get_result_tty (fuel : nat) (self : APIClient) (stream : bool)
    (res : response) (is_tty : bool) : option (result stream_result) :=
  match utils.compare_version "1.6" (_version self) with
  | inl e => Some (inl e)
  | inr c =>
      if c <? 0 then Some (inr (OldStream (_stream_raw_result_old res)))
      else if is_tty then
        if stream then Some (inr (RawStream (_stream_raw_result res)))
        else
          match _result_binary res with
          | inl e => Some (inl e)
          | inr b => Some (inr (RawContent b))
          end
      else
        match _raise_for_status res with
        | inl e => Some (inl e)
        | inr _ =>
            if stream then
              '(g, socket) ← _multiplexed_response_stream_helper
                               fuel self res;
              Some (inr (MultiplexedStream g socket))
            else
              g ← _multiplexed_buffer_helper fuel res;
              match raised g with
              | Some e => Some (inl e)
              | None => Some (inr (MultiplexedContent (concat (yielded g))))
              end
        end
  end.

End Client.

(** The stream modes of the data model, and the mode each kind of result
    belongs to. *)
Inductive stream_mode := Legacy_Line | Raw_Passthrough | Multiplexed.

Definition mode_of (r : stream_result) : stream_mode :=
  match r with
  | OldStream _ => Legacy_Line
  | RawStream _ | RawContent _ => Raw_Passthrough
  | MultiplexedStream _ _ | MultiplexedContent _ => Multiplexed
  end.

(** ** The frame wire format *)

(** Modelled from the spec: the multiplexed wire format of its section 6,
    which the daemon writes and the client only reads.  A frame is an
    8-byte header, [[channel:1][reserved:3][length:4, big-endian]], followed
    by [length] payload bytes. *)
Definition encode_frame (f : byte * bytes) : bytes :=
  let '(channel, payload) := f in
  [channel; x00; x00; x00]
    ++ Py.pack_be32 (Z.of_nat (length payload)) ++ payload.

Definition encode_frames (fs : list (byte * bytes)) : bytes :=
  concat (map encode_frame fs).

(** The header of the frame that carries payload [p] on channel [c]. *)
Definition frame_header (c : byte) (p : bytes) : bytes :=
  [c; x00; x00; x00] ++ Py.pack_be32 (Z.of_nat (length p)).

(** Frames the header format can describe: the length fits 32 bits. *)
Definition encodable (fs : list (byte * bytes)) : Prop :=
  Forall (fun f => Z.of_nat (length (snd f)) < 2 ^ 32) fs.

(** What a turn of the buffered loop that starts with at least a header
    left does: it cuts the chunk of the declared length at the end of the
    buffer. *)
Definition chunk_as_sliced (buf : bytes) (fr : frame_read) : Prop :=
  0 <= at_walker fr /\ 0 <= declared_length fr /\
  STREAM_HEADER_SIZE_BYTES <= Z.of_nat (length buf) - at_walker fr /\
  Z.of_nat (length (chunk fr))
  = Z.min (declared_length fr)
      (Z.of_nat (length buf) - at_walker fr - STREAM_HEADER_SIZE_BYTES).

(** ** Socket timeouts, before and after

    What one turn of the loop of [_disable_socket_timeout] may have done to
    a socket-like object: its attributes stay; without [settimeout] its
    timeout stays; when it reports, through [gettimeout], no timeout or a
    zero timeout, the timeout stays; when it reports another timeout, or
    cannot report one, the timeout is disabled. *)
Definition timeout_disabling (before after : pysocket) : Prop :=
  has_settimeout after = has_settimeout before
  /\ has_gettimeout after = has_gettimeout before
  /\ (has_settimeout before = false ->
      sock_timeout after = sock_timeout before)
  /\ (has_gettimeout before = true -> sock_timeout before = None ->
      sock_timeout after = None)
  /\ (has_gettimeout before = true ->
      forall t, sock_timeout before = Some t -> (t == 0)%Q ->
                sock_timeout after = Some t)
  /\ (has_settimeout before = true -> has_gettimeout before = true ->
      forall t, sock_timeout before = Some t -> ~ (t == 0)%Q ->
                sock_timeout after = None)
  /\ (has_settimeout before = true -> has_gettimeout before = false ->
      sock_timeout after = None).

(** ** Sample values *)

(** A socket with a 60 second timeout and nothing nested in it. *)
Definition sample_socket : pysocket := PySocket true true (Some 60%Q) None.

(** A 200 response with the given body and JSON reading. *)
Definition ok_response (body : bytes) (j : pyvalue) : response :=
  Response None body "" (inr j) [] [] sample_socket sample_socket
           sample_socket.

(** An environment on Linux and Python 3 whose daemon answers every request
    with [{"ApiVersion": "1.30"}]. *)
Definition sample_env : Env := {|
  DEFAULT_TIMEOUT_SECONDS := 60;
  DEFAULT_USER_AGENT := "docker-sdk-python";
  IS_WINDOWS_PLATFORM := false;
  DEFAULT_DOCKER_API_VERSION := "1.26";
  DEFAULT_NUM_POOLS := 25;
  MINIMUM_DOCKER_API_VERSION := "1.21";
  PY3 := true;
  NpipeAdapter_imported := false;
  load_config := PDict ∅;
  parse_host := fun addr _ _ => inr (default "http://127.0.0.1:2375" addr);
  configure_client := fun _ self => self;
  quote_plus := fun s => s;
  str_format := fun pathfmt _ => inr pathfmt;
  json_dumps := fun _ => "{}";
  version_endpoint := "/version";
  str_exn := fun _ => "error";
  str_value := fun _ => "value";
  type_name := fun _ => "type";
  default_headers := ∅;
  update_headers := fun _ kw => kw;
  request := fun _ _ _ =>
    inr (ok_response [] (PDict {[ "ApiVersion" := PStr "1.30" ]}))
|}.

(** The session of that environment once its transport is chosen, for the
    default address and without TLS. *)
Definition sample_session : APIClient :=
  set_base_url "http://127.0.0.1:2375"
    (set_auth_configs (PDict ∅)
       (set_headers {[ "User-Agent" := "docker-sdk-python" ]}
          (set_timeout 60 (new_session sample_env)))).

(** A client of that daemon speaking version [v]. *)
Definition sample_client (v : string) : APIClient :=
  Client "http://127.0.0.1:2375" 60 ∅ (PDict ∅) None
         {[ "http://" := HTTPAdapter; "https://" := HTTPAdapter ]} v.

(** ** Sums over chunks *)

(** The bytes a sequence of chunks holds, with 8 more for the header of
    each. *)
Definition wire_size (chunks : list bytes) : Z :=
  Z.of_nat (length (concat chunks))
  + STREAM_HEADER_SIZE_BYTES * Z.of_nat (length chunks).

(** A generator that first yields [chunks] and then goes on as [g]. *)
Definition gen_prepend {A} (chunks : list A) (g : gen A) : gen A :=
  Gen (chunks ++ yielded g) (raised g).

(** ** Attaching (lines 244-261) *)

(** [_attach_params(override)]: [override or {...}].  [None] and the empty
    dict are false. *)
Definition _attach_params (override : option (gmap string pyvalue))
  : gmap string pyvalue :=
  let defaults : gmap string pyvalue :=
    {[ "stdout" := PInt 1; "stderr" := PInt 1; "stream" := PInt 1 ]} in
  match override with
  | Some d => if decide (d = ∅) then defaults else d
  | None => defaults
  end.

(** [s[n:]] on strings. *)
Fixpoint string_drop (n : nat) (s : string) : string :=
  match n, s with
  | O, _ => s
  | S n', String _ s' => string_drop n' s'
  | S _, EmptyString => EmptyString
  end.

(** [s.replace(old, new, 1)]: the leftmost occurrence of [old] in [s], when
    there is one, becomes [new]. *)
Fixpoint replace_first (old new s : string) : string :=
  if String.prefix old s then new +:+ string_drop (String.length old) s
  else
    match s with
    | EmptyString => EmptyString
    | String a s' => String a (replace_first old new s')
    end.

Section Attach.

Context (env : Env).

(** What [requests] and [websocket] do for [_attach_websocket]:
    [requests.Request("POST", url, params=params).prepare().url] and
    [websocket.create_connection(url)], which returns a connection of some
    type [connection]. *)
Context {connection : Type}.
Context (prepare_url : string -> gmap string pyvalue -> result string).
Context (create_connection : string -> result connection).

(** [_create_websocket_connection(url)] *)
Definition _create_websocket_connection (url : string) : result connection :=
  create_connection url.

(** The body of [_attach_websocket(container, params)], for a container
    given by its id.  The [check_resource] decorator in front of it, which
    is not under src/, only prepares [container]. *)
Definition _attach_websocket (self : APIClient) (container : pyvalue)
    (params : option (gmap string pyvalue)) : result connection :=
  match _url env self "/containers/{0}/attach/ws" [container] true with
  | inl e => inl e
  | inr url =>
      match prepare_url url (_attach_params params) with
      | inl e => inl e
      | inr full_url =>
          let full_url := replace_first "http://" "ws://" full_url in
          let full_url := replace_first "https://" "wss://" full_url in
          _create_websocket_connection full_url
      end
  end.

End Attach.

(** ** Adapters (lines 420-431) *)

(** [url.lower().startswith(prefix.lower())] *)
Definition adapter_matches (url prefix : string) : bool :=
  String.prefix (lower prefix) (lower url).

(** [requests.Session.get_adapter(url)]: the adapter mounted under the
    longest prefix that matches, or [None] where it raises [InvalidSchema].
    Mounted prefixes of the same length that differ only in case are not
    told apart here. *)
Definition session_get_adapter (self : APIClient) (url : string)
  : option adapter :=
  snd <$> foldr
    (fun (pa : string * adapter) (best : option (string * adapter)) =>
       if adapter_matches url (fst pa) then
         match best with
         | Some (p, _) =>
             if (String.length p <? String.length (fst pa))%nat then Some pa
             else best
         | None => Some pa
         end
       else best)
    None (map_to_list (adapters self)).

(** [get_adapter(url)]: the session's adapter for [url], or else the custom
    adapter; [None] where the call raises, which it does when the session
    has no custom adapter to fall back on. *)
Definition get_adapter (self : APIClient) (url : string) : option adapter :=
  match session_get_adapter self url with
  | Some a => Some a
  | None => _custom_adapter self
  end.

(** The [api_version] property. *)
Definition api_version (self : APIClient) : string := _version self.

(** A socket-like object with another [_sock]. *)
Definition with_sock (s : pysocket) (inner : option pysocket) : pysocket :=
  PySocket (has_settimeout s) (has_gettimeout s) (sock_timeout s) inner.

(** Whether a value is a string. *)
Definition is_str (v : pyvalue) : bool :=
  match v with PStr _ => true | _ => false end.

(** ** More sample values *)

(** [sample_env] on Windows, with the named-pipe adapter installed. *)
Definition windows_env : Env := {|
  DEFAULT_TIMEOUT_SECONDS := DEFAULT_TIMEOUT_SECONDS sample_env;
  DEFAULT_USER_AGENT := DEFAULT_USER_AGENT sample_env;
  IS_WINDOWS_PLATFORM := true;
  DEFAULT_DOCKER_API_VERSION := DEFAULT_DOCKER_API_VERSION sample_env;
  DEFAULT_NUM_POOLS := DEFAULT_NUM_POOLS sample_env;
  MINIMUM_DOCKER_API_VERSION := MINIMUM_DOCKER_API_VERSION sample_env;
  PY3 := PY3 sample_env;
  NpipeAdapter_imported := true;
  load_config := load_config sample_env;
  parse_host := parse_host sample_env;
  configure_client := configure_client sample_env;
  quote_plus := quote_plus sample_env;
  str_format := str_format sample_env;
  json_dumps := json_dumps sample_env;
  version_endpoint := version_endpoint sample_env;
  str_exn := str_exn sample_env;
  str_value := str_value sample_env;
  type_name := type_name sample_env;
  default_headers := default_headers sample_env;
  update_headers := update_headers sample_env;
  request := request sample_env
|}.

(** [sample_env] with a daemon that cannot be reached. *)
Definition offline_env : Env := {|
  DEFAULT_TIMEOUT_SECONDS := DEFAULT_TIMEOUT_SECONDS sample_env;
  DEFAULT_USER_AGENT := DEFAULT_USER_AGENT sample_env;
  IS_WINDOWS_PLATFORM := IS_WINDOWS_PLATFORM sample_env;
  DEFAULT_DOCKER_API_VERSION := DEFAULT_DOCKER_API_VERSION sample_env;
  DEFAULT_NUM_POOLS := DEFAULT_NUM_POOLS sample_env;
  MINIMUM_DOCKER_API_VERSION := MINIMUM_DOCKER_API_VERSION sample_env;
  PY3 := PY3 sample_env;
  NpipeAdapter_imported := NpipeAdapter_imported sample_env;
  load_config := load_config sample_env;
  parse_host := parse_host sample_env;
  configure_client := configure_client sample_env;
  quote_plus := quote_plus sample_env;
  str_format := str_format sample_env;
  json_dumps := json_dumps sample_env;
  version_endpoint := version_endpoint sample_env;
  str_exn := str_exn sample_env;
  str_value := str_value sample_env;
  type_name := type_name sample_env;
  default_headers := default_headers sample_env;
  update_headers := update_headers sample_env;
  request := fun _ _ _ => inl (TypeError "connection refused")
|}.

(** * Properties *)

(** ** Bytes and slices *)

Section Bytes.

Lemma byte_val_range b : 0 <= Py.byte_val b < 256.
Proof.
  unfold Py.byte_val. pose proof (Byte.to_N_bounded b). lia.
Qed.

Lemma byte_val_of_Z n : Py.byte_val (Py.byte_of_Z n) = n mod 256.
Proof.
  unfold Py.byte_val, Py.byte_of_Z.
  assert (Hr : 0 <= n mod 256 < 256) by (apply Z.mod_pos_bound; lia).
  destruct (Byte.of_N (Z.to_N (n mod 256))) as [b|] eqn:E.
  - apply Byte.to_of_N in E. simpl. rewrite E. lia.
  - apply Byte.of_N_None_iff in E. lia.
Qed.

Lemma testbit_byte_val_of_Z n i :
  0 <= i ->
  Z.testbit (Py.byte_val (Py.byte_of_Z n)) i = (i <? 8) && Z.testbit n i.
Proof.
  intros Hi. rewrite byte_val_of_Z. change 256 with (2 ^ 8).
  rewrite Z.testbit_mod_pow2 by lia. reflexivity.
Qed.

(** [>L] reads back what [>L] wrote. *)
Lemma be32_pack n :
  0 <= n < 2 ^ 32 ->
  Py.be32 (Py.byte_of_Z (Z.shiftr n 24)) (Py.byte_of_Z (Z.shiftr n 16))
          (Py.byte_of_Z (Z.shiftr n 8)) (Py.byte_of_Z n) = n.
Proof.
  intros Hn. unfold Py.be32. apply Z.bits_inj'. intros i Hi.
  rewrite !Z.lor_spec, !Z.shiftl_spec by lia.
  assert (Hhigh : 32 <= i -> Z.testbit n i = false).
  { intros. rewrite <- (Z.mod_small n (2 ^ 32)) by lia.
    rewrite Z.testbit_mod_pow2 by lia.
    destruct (i <? 32) eqn:E; [lia | reflexivity]. }
  destruct (Z_lt_dec i 8);
    [|destruct (Z_lt_dec i 16);
      [|destruct (Z_lt_dec i 24); [|destruct (Z_lt_dec i 32)]]].
  all: repeat match goal with
       | |- context [Z.testbit (Py.byte_val (Py.byte_of_Z ?a)) ?j] =>
           first [ rewrite (Z.testbit_neg_r _ j) by lia
                 | rewrite (testbit_byte_val_of_Z a j) by lia;
                   rewrite ?Z.shiftr_spec by lia ]
       end.
  all: repeat match goal with
       | |- context [?a <? ?b] =>
           let E := fresh in destruct (a <? b) eqn:E; try lia
       end; simpl; rewrite ?orb_false_r; try reflexivity.
  all: try (f_equal; lia).
  all: try (symmetry; apply Hhigh; lia).
Qed.

Lemma be32_nonneg b0 b1 b2 b3 : 0 <= Py.be32 b0 b1 b2 b3.
Proof.
  unfold Py.be32.
  pose proof (byte_val_range b0). pose proof (byte_val_range b1).
  pose proof (byte_val_range b2). pose proof (byte_val_range b3).
  repeat (apply Z.lor_nonneg; split); try apply Z.shiftl_nonneg; lia.
Qed.

(** A slice with bounds inside the sequence is a [take] of a [drop]. *)
Lemma slice_take_drop {A} (buf : list A) lo hi :
  0 <= lo -> lo <= hi ->
  Py.slice buf lo hi = take (Z.to_nat (hi - lo)) (drop (Z.to_nat lo) buf).
Proof.
  intros Hlo Hhi. unfold Py.slice, Py.slice_bound.
  destruct (lo <? 0) eqn:E1; [lia|].
  destruct (hi <? 0) eqn:E2; [lia|].
  set (len := Z.of_nat (length buf)).
  destruct (Z_le_dec lo len) as [Hl|Hl].
  - rewrite (Z.min_r len lo) by lia.
    destruct (Z_le_dec hi len) as [Hh|Hh].
    + rewrite (Z.min_r len hi) by lia. reflexivity.
    + rewrite (Z.min_l len hi) by lia.
      rewrite !take_ge; [reflexivity | |]; rewrite length_drop; lia.
  - rewrite (Z.min_l len lo), (Z.min_l len hi) by lia.
    rewrite Z.sub_diag. subst len.
    rewrite (drop_ge buf (Z.to_nat lo)) by lia. by rewrite !take_nil.
Qed.

Lemma slice_length {A} (buf : list A) lo hi :
  0 <= lo -> lo <= hi ->
  Z.of_nat (length (Py.slice buf lo hi))
  = Z.max 0 (Z.min (hi - lo) (Z.of_nat (length buf) - lo)).
Proof.
  intros Hlo Hhi. rewrite slice_take_drop by lia.
  rewrite length_take, length_drop. lia.
Qed.

(** The slice that covers the middle of three concatenated pieces. *)
Lemma slice_app_middle {A} (a b c : list A) :
  Py.slice (a ++ b ++ c) (Z.of_nat (length a))
           (Z.of_nat (length a) + Z.of_nat (length b)) = b.
Proof.
  rewrite slice_take_drop by lia.
  rewrite Nat2Z.id, drop_app_length.
  replace (Z.to_nat _) with (length b) by lia.
  apply take_app_length.
Qed.

Lemma unpack_from_ge8 (l : bytes) :
  (8 <= length l)%nat ->
  exists c len, Py.unpack_from_BxxxL l = inr (c, len) /\ 0 <= len.
Proof.
  intros H.
  do 8 (destruct l as [|? l]; [simpl in H; lia|]).
  simpl. eexists _, _. split; [reflexivity | apply be32_nonneg].
Qed.

End Bytes.

(** ** The multiplexed decoders *)

Section Frames.

Lemma encode_frame_header c p :
  encode_frame (c, p) = frame_header c p ++ p.
Proof. reflexivity. Qed.

Lemma frame_header_length c p : length (frame_header c p) = 8%nat.
Proof. reflexivity. Qed.

Lemma unpack_from_frame_header c p :
  Z.of_nat (length p) < 2 ^ 32 ->
  Py.unpack_from_BxxxL (frame_header c p)
  = inr (Py.byte_val c, Z.of_nat (length p)).
Proof.
  intros H. unfold frame_header, Py.pack_be32. simpl.
  rewrite be32_pack by lia. reflexivity.
Qed.

Lemma unpack_frame_header c p :
  Z.of_nat (length p) < 2 ^ 32 ->
  Py.unpack_BxxxL (frame_header c p)
  = inr (Py.byte_val c, Z.of_nat (length p)).
Proof.
  intros H. unfold frame_header, Py.pack_be32. simpl.
  rewrite be32_pack by lia. reflexivity.
Qed.

Lemma encode_frames_cons f fs :
  encode_frames (f :: fs) = encode_frame f ++ encode_frames fs.
Proof. reflexivity. Qed.

Lemma encode_frames_app fs1 fs2 :
  encode_frames (fs1 ++ fs2) = encode_frames fs1 ++ encode_frames fs2.
Proof. unfold encode_frames. by rewrite map_app, concat_app. Qed.

(** One turn of the buffered loop over a well-formed frame. *)
Lemma buffer_loop_step fuel pre c p rest :
  Z.of_nat (length p) < 2 ^ 32 ->
  let buf := pre ++ encode_frame (c, p) ++ rest in
  buffer_loop (S fuel) buf (Z.of_nat (length buf)) (Z.of_nat (length pre))
  = gen_yield p
      <$> buffer_loop fuel buf (Z.of_nat (length buf))
            (Z.of_nat (length (pre ++ encode_frame (c, p)))).
Proof.
  intros Hp buf. subst buf. rewrite encode_frame_header.
  cbn [buffer_loop]. unfold STREAM_HEADER_SIZE_BYTES.
  rewrite !length_app, frame_header_length.
  match goal with |- context [?a <? ?b] => destruct (Z.ltb_spec a b); [lia|] end.
  rewrite <- !app_assoc.
  replace (Py.slice _ (Z.of_nat (length pre)) (Z.of_nat (length pre) + 8))
    with (frame_header c p).
  2:{ symmetry. apply (slice_app_middle pre (frame_header c p)). }
  rewrite unpack_from_frame_header by done.
  replace (Py.slice _ _ _) with p.
  2:{ symmetry. rewrite (app_assoc pre).
      replace (Z.of_nat (length pre) + 8)
        with (Z.of_nat (length (pre ++ frame_header c p)))
        by (rewrite length_app, frame_header_length; lia).
      apply slice_app_middle. }
  do 2 f_equal. lia.
Qed.

(** The instrumented loop yields the chunks of the loop itself. *)
Lemma buffer_loop_frames_chunks fuel buf buf_length walker :
  buffer_loop fuel buf buf_length walker
  = gen_map chunk <$> buffer_loop_frames fuel buf buf_length walker.
Proof.
  revert walker. induction fuel as [|fuel IH]; intros walker; [done|].
  cbn [buffer_loop buffer_loop_frames].
  destruct (_ <? _); [done|].
  destruct (Py.unpack_from_BxxxL _) as [e|[c len]]; [done|].
  rewrite IH. by destruct (buffer_loop_frames fuel _ _ _).
Qed.

(** The buffered loop over well-formed frames followed by fewer than 8
    bytes: every payload, in order, then a clean end. *)
Lemma buffer_loop_encoded fs :
  forall fuel pre tail,
    encodable fs -> (length tail < 8)%nat -> (length fs < fuel)%nat ->
    let buf := pre ++ encode_frames fs ++ tail in
    buffer_loop fuel buf (Z.of_nat (length buf)) (Z.of_nat (length pre))
    = Some (Gen (map snd fs) None).
Proof.
  induction fs as [|[c p] fs IH]; intros fuel pre tail Hfs Htail Hfuel buf.
  - destruct fuel as [|fuel]; [simpl in Hfuel; lia|].
    subst buf. cbn [buffer_loop encode_frames map concat app].
    rewrite length_app. unfold STREAM_HEADER_SIZE_BYTES.
    match goal with
    | |- context [?a <? ?b] => destruct (Z.ltb_spec a b); [done|lia]
    end.
  - destruct fuel as [|fuel]; [simpl in Hfuel; lia|].
    apply Forall_cons in Hfs as [Hp Hfs]. simpl in Hp, Hfuel.
    subst buf. rewrite encode_frames_cons, <- (app_assoc (encode_frame _)).
    rewrite buffer_loop_step by done.
    specialize (IH fuel (pre ++ encode_frame (c, p)) tail Hfs Htail).
    rewrite <- !app_assoc in IH.
    exact (f_equal (fmap (M:=option) (gen_yield p)) (IH ltac:(lia))).
Qed.

(** The buffered loop ends on every buffer, never raises, and slices each
    chunk as [chunk_as_sliced] says. *)
Lemma buffer_loop_frames_total fuel :
  forall buf walker,
    0 <= walker ->
    (Z.to_nat (Z.of_nat (length buf) - walker) < fuel)%nat ->
    exists g,
      buffer_loop_frames fuel buf (Z.of_nat (length buf)) walker = Some g
      /\ raised g = None
      /\ Forall (chunk_as_sliced buf) (yielded g).
Proof.
  induction fuel as [|fuel IH]; intros buf walker Hw Hfuel; [lia|].
  cbn [buffer_loop_frames]. unfold STREAM_HEADER_SIZE_BYTES.
  match goal with
  | |- context [?a <? ?b] => destruct (Z.ltb_spec a b) as [Hlt|Hge]
  end.
  { eexists. split; [reflexivity|]. split; [done | constructor]. }
  destruct (unpack_from_ge8 (Py.slice buf walker (walker + 8)))
    as (c & len & -> & Hlen).
  { apply Nat2Z.inj_le. rewrite slice_length by lia. lia. }
  destruct (IH buf (walker + 8 + len)) as (g & -> & Hr & Hg); [lia|lia|].
  eexists. split; [reflexivity|]. split; [done|].
  cbn [yielded gen_yield]. constructor; [|done].
  unfold chunk_as_sliced, STREAM_HEADER_SIZE_BYTES. cbn.
  rewrite slice_length by lia. lia.
Qed.

(** One turn of the streaming loop over a well-formed frame: a frame with
    a payload yields it, a frame without one yields nothing, and both go
    on with the next header. *)
Lemma stream_loop_step fuel c p rest :
  Z.of_nat (length p) < 2 ^ 32 ->
  stream_loop (S fuel) (encode_frame (c, p) ++ rest)
  = if Py.truthy_bytes p then gen_yield p <$> stream_loop fuel rest
    else stream_loop fuel rest.
Proof.
  intros Hp. rewrite encode_frame_header, <- app_assoc.
  cbn [stream_loop]. unfold read, STREAM_HEADER_SIZE_BYTES.
  change (Z.to_nat 8) with (length (frame_header c p)).
  rewrite take_app_length, drop_app_length.
  change (Py.truthy_bytes (frame_header c p)) with true. cbn [negb].
  rewrite unpack_frame_header by done.
  destruct p as [|b p]; [reflexivity|].
  match goal with
  | |- context [?a =? ?b] => destruct (Z.eqb_spec a b) as [E|_]
  end; [simpl in E; lia|].
  rewrite Nat2Z.id, take_app_length, drop_app_length. reflexivity.
Qed.

(** The streaming loop over well-formed frames: the non-empty payloads, in
    order, then a clean end on the empty header read. *)
Lemma stream_loop_encoded fs :
  forall fuel,
    encodable fs -> (length fs < fuel)%nat ->
    stream_loop fuel (encode_frames fs)
    = Some (Gen (List.filter Py.truthy_bytes (map snd fs)) None).
Proof.
  induction fs as [|[c p] fs IH]; intros fuel Hfs Hfuel.
  - destruct fuel as [|fuel]; [simpl in Hfuel; lia|]. reflexivity.
  - destruct fuel as [|fuel]; [simpl in Hfuel; lia|].
    apply Forall_cons in Hfs as [Hp Hfs]. simpl in Hp, Hfuel.
    rewrite encode_frames_cons, stream_loop_step by done.
    rewrite IH by (done || lia). cbn [map List.filter snd].
    by destruct (Py.truthy_bytes p).
Qed.

(** The streaming loop ends on every body. *)
Lemma stream_loop_total fuel :
  forall raw, (length raw < fuel)%nat ->
              exists g, stream_loop fuel raw = Some g.
Proof.
  induction fuel as [|fuel IH]; intros raw Hfuel; [lia|].
  cbn [stream_loop]. unfold read, STREAM_HEADER_SIZE_BYTES.
  destruct (take (Z.to_nat 8) raw) as [|b header] eqn:Eh; [by eexists|].
  assert (Hraw : (0 < length raw)%nat) by (destruct raw; [done | simpl; lia]).
  cbn [Py.truthy_bytes negb].
  destruct (Py.unpack_BxxxL _) as [e|[c len]]; [by eexists|].
  destruct (len =? 0).
  { apply IH. rewrite length_drop. lia. }
  destruct (Py.truthy_bytes _); [|by eexists]. cbn [negb].
  destruct (IH (drop (Z.to_nat len) (drop (Z.to_nat 8) raw))) as [g ->].
  { rewrite !length_drop. lia. }
  by eexists.
Qed.

End Frames.

(** ** The specification's statements about the decoders *)

Section DecoderClaims.

Context (env : Env).

(** The buffered decoder on a body made of well-formed frames and fewer
    than 8 bytes more. *)
Lemma buffer_helper_encoded fuel resp fs tail :
  encodable fs ->
  (length tail < 8)%nat ->
  http_error resp = None ->
  content resp = encode_frames fs ++ tail ->
  (length fs < fuel)%nat ->
  _multiplexed_buffer_helper fuel resp = Some (Gen (map snd fs) None).
Proof.
  intros Hfs Htail Hok Hbody Hfuel.
  unfold _multiplexed_buffer_helper, _result_binary, _raise_for_status.
  rewrite Hok, Hbody.
  exact (buffer_loop_encoded fs fuel [] tail Hfs Htail Hfuel).
Qed.

(** C1, as the code has it.  The buffered decoder reads the channel byte
    of every header and drops it: decoding the encoding of a sequence of
    (channel, payload) pairs yields the payloads alone, in order, and ends
    cleanly. *)
Theorem buffered_decode_payloads fuel resp fs :
  encodable fs ->
  http_error resp = None ->
  content resp = encode_frames fs ->
  (length fs < fuel)%nat ->
  _multiplexed_buffer_helper fuel resp = Some (Gen (map snd fs) None).
Proof.
  intros Hfs Hok Hbody Hfuel.
  apply (buffer_helper_encoded fuel resp fs []); try done.
  - simpl. lia.
  - by rewrite app_nil_r.
Qed.

(** C3.  A buffer that ends with fewer than 8 bytes after its last
    complete frame yields the payloads of the complete frames and ends
    without raising; the buffered decoder raises on no buffer whatever; and
    the streaming decoder ends without raising on the empty header
    read that follows the last frame. *)
Theorem short_tail_ends_cleanly fuel self resp sresp socket fs tail :
  encodable fs ->
  (length tail < 8)%nat ->
  http_error resp = None ->
  content resp = encode_frames fs ++ tail ->
  _get_raw_response_socket env self sresp = inr socket ->
  content sresp = encode_frames fs ->
  (length fs < fuel)%nat ->
  _multiplexed_buffer_helper fuel resp = Some (Gen (map snd fs) None)
  /\ (forall fuel' resp',
        http_error resp' = None ->
        (length (content resp') < fuel')%nat ->
        exists chunks,
          _multiplexed_buffer_helper fuel' resp' = Some (Gen chunks None))
  /\ (exists chunks socket',
        _multiplexed_response_stream_helper env fuel self sresp
        = Some (Gen chunks None, socket'))
  /\ stream_loop fuel [] = Some gen_return.
Proof.
  intros Hfs Htail Hok Hbody Hsock Hsbody Hfuel.
  repeat split.
  - by apply (buffer_helper_encoded fuel resp fs tail).
  - intros fuel' resp' Hok' Hfuel'.
    unfold _multiplexed_buffer_helper, _result_binary, _raise_for_status.
    rewrite Hok', buffer_loop_frames_chunks.
    destruct (buffer_loop_frames_total fuel' (content resp') 0)
      as (g & -> & Hr & _); [lia | lia |].
    destruct g as [ys r]. simpl in Hr. subst r. by eexists.
  - unfold _multiplexed_response_stream_helper.
    rewrite Hsock, Hsbody, stream_loop_encoded by done.
    by eexists _, _.
  - destruct fuel; [lia | reflexivity].
Qed.

(** C2, as the code has it.  In a buffer, a frame that declares length
    zero is yielded as an empty chunk and the frames after it follow; in a
    streamed response such a frame yields nothing ([if not length:
    continue]) and the frames after it follow. *)
Theorem zero_length_frame fuel self resp socket fs1 c fs2 :
  encodable fs1 ->
  encodable fs2 ->
  http_error resp = None ->
  content resp = encode_frames (fs1 ++ (c, []) :: fs2) ->
  _get_raw_response_socket env self resp = inr socket ->
  (length (fs1 ++ (c, []) :: fs2) < fuel)%nat ->
  _multiplexed_buffer_helper fuel resp
  = Some (Gen (map snd fs1 ++ [] :: map snd fs2) None)
  /\ fst <$> _multiplexed_response_stream_helper env fuel self resp
     = Some (Gen (List.filter Py.truthy_bytes (map snd fs1)
                  ++ List.filter Py.truthy_bytes (map snd fs2)) None).
Proof.
  intros Hfs1 Hfs2 Hok Hbody Hsock Hfuel.
  assert (Hfs : encodable (fs1 ++ (c, []) :: fs2)).
  { apply Forall_app. split; [done|]. constructor; [simpl; lia | done]. }
  split.
  - rewrite (buffer_helper_encoded fuel resp _ [] Hfs); try done.
    + by rewrite map_app.
    + simpl. lia.
    + by rewrite app_nil_r.
  - unfold _multiplexed_response_stream_helper.
    rewrite Hsock, Hbody, stream_loop_encoded by done.
    cbn [fmap option_fmap option_map mbind option_bind fst].
    by rewrite map_app, List.filter_app.
Qed.

(** C7, as the code has it.  The buffered decoder does not compare the
    declared length with what the buffer holds: it ends on every buffer
    without raising, and each chunk it yields is the slice of the declared
    length cut at the end of the buffer, so it has the declared number of
    bytes when that many remain after the header, and the remaining bytes
    otherwise. *)
Theorem buffered_chunk_lengths fuel resp :
  http_error resp = None ->
  (length (content resp) < fuel)%nat ->
  let buf := content resp in
  exists frames,
    buffer_loop_frames fuel buf (Z.of_nat (length buf)) 0
    = Some (Gen frames None)
    /\ _multiplexed_buffer_helper fuel resp
       = Some (Gen (map chunk frames) None)
    /\ Forall (fun fr =>
                 Z.of_nat (length (chunk fr))
                 = Z.min (declared_length fr)
                     (Z.of_nat (length buf) - at_walker fr
                      - STREAM_HEADER_SIZE_BYTES))
              frames.
Proof.
  intros Hok Hfuel buf.
  destruct (buffer_loop_frames_total fuel buf 0)
    as ([frames r] & Hg & Hr & Hall); [lia | subst buf; lia |].
  simpl in Hr. subst r. exists frames. split; [done|]. split.
  - unfold _multiplexed_buffer_helper, _result_binary, _raise_for_status.
    rewrite Hok. fold buf. by rewrite buffer_loop_frames_chunks, Hg.
  - eapply Forall_impl; [exact Hall|]. by intros fr (_ & _ & _ & H).
Qed.

End DecoderClaims.

(** The frames used as examples: a payload on each channel. *)
Lemma sample_frames_encodable :
  encodable [(x01, [x61]); (x02, [x62; x63])].
Proof. repeat constructor; simpl; lia. Qed.

(** Two frames, one on each channel, decoded from a buffer. *)
Lemma buffered_decode_payloads_witness :
  _multiplexed_buffer_helper 3
    (ok_response (encode_frames [(x01, [x61]); (x02, [x62; x63])]) PNone)
  = Some (Gen [[x61]; [x62; x63]] None).
Proof.
  apply (buffered_decode_payloads 3 _ [(x01, [x61]); (x02, [x62; x63])]).
  - exact sample_frames_encodable.
  - reflexivity.
  - reflexivity.
  - simpl. lia.
Defined.

(** C1, as the specification states it, fails: two sequences that differ
    only in a channel decode to the same chunks, so the decoded sequence
    does not give the (channel, payload) pairs back. *)
Lemma buffered_decode_loses_channel :
  [(x01, [x61])] <> [(x02, [x61])]
  /\ _multiplexed_buffer_helper 2 (ok_response (encode_frames [(x01, [x61])])
                                               PNone)
     = Some (Gen [[x61]] None)
  /\ _multiplexed_buffer_helper 2 (ok_response (encode_frames [(x02, [x61])])
                                               PNone)
     = Some (Gen [[x61]] None).
Proof. split; [discriminate | split; reflexivity]. Qed.

(** The same two frames followed by 3 bytes of a third header. *)
Lemma short_tail_ends_cleanly_witness :
  _multiplexed_buffer_helper 3
    (ok_response (encode_frames [(x01, [x61]); (x02, [x62; x63])]
                  ++ [x01; x00; x00]) PNone)
  = Some (Gen [[x61]; [x62; x63]] None).
Proof.
  apply (short_tail_ends_cleanly sample_env 3 (sample_client "1.30")
           _ (ok_response (encode_frames [(x01, [x61]); (x02, [x62; x63])])
                          PNone)
           sample_socket [(x01, [x61]); (x02, [x62; x63])] [x01; x00; x00]).
  - exact sample_frames_encodable.
  - simpl. lia.
  - reflexivity.
  - reflexivity.
  - reflexivity.
  - reflexivity.
  - simpl. lia.
Defined.

(** A frame of length zero between two frames, in a buffer. *)
Lemma zero_length_frame_witness :
  _multiplexed_buffer_helper 4
    (ok_response (encode_frames [(x01, [x61]); (x02, []); (x02, [x62; x63])])
                 PNone)
  = Some (Gen [[x61]; []; [x62; x63]] None).
Proof.
  apply (zero_length_frame sample_env 4 (sample_client "1.30") _
           sample_socket [(x01, [x61])] x02 [(x02, [x62; x63])]).
  - repeat constructor; simpl; lia.
  - repeat constructor; simpl; lia.
  - reflexivity.
  - reflexivity.
  - reflexivity.
  - simpl. lia.
Defined.

(** C2, as the specification states it, fails in the streamed shape: the
    frame of length zero between two frames leaves no empty chunk among the
    chunks yielded. *)
Lemma streamed_zero_length_frame_not_emitted :
  _multiplexed_response_stream_helper sample_env 4 (sample_client "1.30")
    (ok_response (encode_frames [(x01, [x61]); (x02, []); (x02, [x62; x63])])
                 PNone)
  = Some (Gen [[x61]; [x62; x63]] None, Some (settimeout sample_socket None))
  /\ ~ In [] [[x61]; [x62; x63]].
Proof.
  split; [vm_compute; reflexivity|].
  intros [H|[H|[]]]; discriminate H.
Qed.

(** A buffer of one frame whose 2 declared bytes are there. *)
Lemma buffered_chunk_lengths_witness :
  exists frames,
    buffer_loop_frames 12 [x01; x00; x00; x00; x00; x00; x00; x02; x61; x62]
                       10 0
    = Some (Gen frames None)
    /\ _multiplexed_buffer_helper 12
         (ok_response [x01; x00; x00; x00; x00; x00; x00; x02; x61; x62]
                      PNone)
       = Some (Gen (map chunk frames) None)
    /\ Forall (fun fr =>
                 Z.of_nat (length (chunk fr))
                 = Z.min (declared_length fr)
                     (10 - at_walker fr - STREAM_HEADER_SIZE_BYTES))
              frames.
Proof.
  apply (buffered_chunk_lengths 12
           (ok_response [x01; x00; x00; x00; x00; x00; x00; x02; x61; x62]
                        PNone)).
  - reflexivity.
  - simpl. lia.
Defined.

(** C7, as the specification states it, fails: a header that declares 10
    bytes in front of the last 3 bytes of the buffer yields a chunk of 3
    bytes. *)
Lemma buffered_chunk_shorter_than_declared :
  buffer_loop_frames 2
    [x01; x00; x00; x00; x00; x00; x00; x0a; x61; x62; x63] 11 0
  = Some (Gen [FrameRead 0 10 [x61; x62; x63]] None)
  /\ _multiplexed_buffer_helper 2
       (ok_response [x01; x00; x00; x00; x00; x00; x00; x0a; x61; x62; x63]
                    PNone)
     = Some (Gen [[x61; x62; x63]] None)
  /\ Z.of_nat (length [x61; x62; x63]) <> 10.
Proof. split; [reflexivity | split; [reflexivity | simpl; lia]]. Qed.

(** ** Socket timeouts *)

Ltac timeout_cases :=
  eexists; split; [reflexivity|]; split; [done|];
  unfold timeout_disabling; cbn; repeat split; intros; simplify_eq;
  try done; try contradiction.

Lemma disable_timeout_of_rule s :
  exists s', disable_timeout_of (Some s) = Some s'
             /\ _sock s' = _sock s
             /\ timeout_disabling s s'.
Proof.
  destruct s as [can_set can_get t inner]. unfold disable_timeout_of.
  cbn [has_settimeout has_gettimeout sock_timeout].
  destruct can_set; cbn [negb]; [|timeout_cases].
  destruct can_get.
  - destruct t as [t|]; [|timeout_cases].
    destruct (Qeq_bool t 0) eqn:E.
    + apply Qeq_bool_iff in E. timeout_cases.
    + apply Qeq_bool_neq in E. timeout_cases.
  - change (Qeq_bool (-1) 0) with false. cbn iota. timeout_cases.
Qed.

(** C9, as the code has it.  [_disable_socket_timeout] treats the socket
    and its [_sock], when there is one, alike: an object without
    [settimeout] is skipped; an object that reports no timeout or a zero
    timeout keeps it; the timeout is disabled when the object reports
    another timeout and also when it has no [gettimeout] to report one. *)
Theorem disable_socket_timeout_rule (socket : pysocket) :
  let socket' := _disable_socket_timeout socket in
  timeout_disabling socket socket'
  /\ match _sock socket with
     | None => _sock socket' = None
     | Some inner =>
         exists inner', _sock socket' = Some inner'
                        /\ _sock inner' = _sock inner
                        /\ timeout_disabling inner inner'
     end.
Proof.
  intros socket'. subst socket'. unfold _disable_socket_timeout.
  cbn [map].
  destruct (disable_timeout_of_rule socket) as (s' & -> & _ & Hs).
  split.
  - exact Hs.
  - destruct (_sock socket) as [inner|]; [|reflexivity].
    destruct (disable_timeout_of_rule inner) as (i' & -> & Hi1 & Hi2).
    by exists i'.
Qed.

(** C9, as the specification states it, fails: a non-blocking socket
    (timeout 0) that has [settimeout] and no [gettimeout] is made
    blocking. *)
Lemma non_blocking_socket_made_blocking :
  sock_timeout (PySocket true false (Some 0%Q) None) = Some 0%Q
  /\ _disable_socket_timeout (PySocket true false (Some 0%Q) None)
     = PySocket true false None None.
Proof. split; reflexivity. Qed.

(** ** Posting JSON *)

Section PostJson.

Context (env : Env).

(** [data2] has the items of [data] whose value is not [None], and no
    others. *)
Lemma without_none_items_lookup (data : gmap string pyvalue) k :
  without_none_items data !! k
  = match data !! k with
    | Some PNone => None
    | other => other
    end.
Proof.
  unfold without_none_items.
  apply (map_fold_weak_ind
           (fun (r m : gmap string pyvalue) =>
              r !! k = match m !! k with
                       | Some PNone => None
                       | other => other
                       end)).
  - by rewrite !lookup_empty.
  - intros i x m r Hi IH.
    destruct (decide (i = k)) as [->|Hne].
    + rewrite lookup_insert_eq. rewrite Hi in IH.
      destruct x; cbn [is_None]; rewrite ?lookup_insert_eq; done.
    + rewrite lookup_insert_ne by done.
      destruct (is_None x); [done|]. by rewrite lookup_insert_ne.
Qed.

(** C10.  [_post_json] posts, as body, the serialisation of the dict
    without the keys whose value is [None] and with every other key
    unchanged, under the headers it was given with [Content-Type] set to
    [application/json]. *)
Theorem post_json_drops_none self url (data : gmap string pyvalue) kw :
  exists (data2 : gmap string pyvalue) (headers' : gmap string string),
    _post_json env self url (PDict data) kw
    = _post env self url
        (Kwargs (Some headers') (kw_timeout kw)
                (Some (json_dumps env (PDict data2))) (kw_others kw))
    /\ (forall k, data !! k = Some PNone -> data2 !! k = None)
    /\ (forall k v, data !! k = Some v -> v <> PNone ->
                    data2 !! k = Some v)
    /\ (forall k, data !! k = None -> data2 !! k = None)
    /\ headers' !! "Content-Type" = Some "application/json"
    /\ (forall h, h <> "Content-Type" ->
                  headers' !! h = default ∅ (kw_headers kw) !! h).
Proof.
  exists (without_none_items data),
         (<["Content-Type" := "application/json"]>
            (default ∅ (kw_headers kw))).
  split; [reflexivity|].
  split; [|split; [|split; [|split]]].
  - intros k Hk. by rewrite without_none_items_lookup, Hk.
  - intros k v Hk Hv. rewrite without_none_items_lookup, Hk.
    by destruct v.
  - intros k Hk. by rewrite without_none_items_lookup, Hk.
  - apply lookup_insert_eq.
  - intros h Hh. by rewrite lookup_insert_ne.
Qed.

End PostJson.

(** ** Versions *)

Section Versions.

Lemma compare_parsed_antisym s1 s2 :
  utils.compare_parsed s2 s1 = CompOpp (utils.compare_parsed s1 s2).
Proof.
  destruct s1 as [[a1 b1] c1], s2 as [[a2 b2] c2]. cbn.
  rewrite (N.compare_antisym a2 a1), (N.compare_antisym b2 b1),
    (N.compare_antisym c2 c1).
  destruct (a2 ?= a1)%N, (b2 ?= b1)%N, (c2 ?= c1)%N; reflexivity.
Qed.

(** The test of [_get_result_tty] on a version is the test "older than
    1.6". *)
Lemma compare_with_1_6 v pv :
  utils.parse_version v = Some pv ->
  exists c older,
    utils.compare_version "1.6" v = inr c
    /\ utils.version_lt v "1.6" = inr older
    /\ (c <? 0) = older.
Proof.
  intros Hv. unfold utils.version_lt, utils.compare_version.
  rewrite Hv.
  change (utils.parse_version "1.6") with (Some (1%N, 6%N, 0%N)).
  cbn match. rewrite (compare_parsed_antisym pv).
  destruct (utils.compare_parsed pv _); cbn; by eexists _, _.
Qed.

End Versions.

(** ** Traces of the constructor *)

Ltac unfold_monad :=
  unfold bind, ret, raise, lift, emit in *.

Section Traces.

Context (env : Env).

(** Choosing the transport leaves the trace as it was. *)
Lemma init_transport_trace base_url timeout tls user_agent num_pools
      log r log' :
  init_transport env base_url timeout tls user_agent num_pools log
  = (r, log') ->
  log' = log.
Proof.
  unfold init_transport, select_transport. unfold_monad.
  repeat match goal with
         | |- context [if ?b then _ else _] => destruct b
         | |- context [match ?x with _ => _ end] => destruct x
         end; by intros [= _ <-].
Qed.

Lemma warnings_network_call log method url :
  warnings (log ++ [NetworkCall method url]) = warnings log.
Proof. unfold warnings. rewrite omap_app. cbn. apply app_nil_r. Qed.

(** A request adds itself to the trace and nothing else. *)
Lemma version_trace self api_version log r log' :
  version env self api_version log = (r, log') ->
  warnings log' = warnings log.
Proof.
  unfold version, _get, send. unfold_monad.
  destruct (_url _ _ _ _ _); [by intros [= _ <-]|].
  destruct (request _ _ _ _); intros [= _ <-];
    apply warnings_network_call.
Qed.

Lemma retrieve_server_version_trace self log r log' :
  _retrieve_server_version env self log = (r, log') ->
  warnings log' = warnings log.
Proof.
  unfold _retrieve_server_version.
  destruct (version env self false log) as [r0 l0] eqn:E.
  apply version_trace in E.
  repeat match goal with
         | |- context [match ?x with _ => _ end] => destruct x
         end; by intros [= _ <-].
Qed.

(** Resolving the version adds requests to the trace and nothing else. *)
Lemma resolve_version_trace ver self log r log' :
  resolve_version env ver self log = (r, log') ->
  warnings log' = warnings log.
Proof.
  unfold resolve_version. destruct ver as [|v|ty].
  - by intros [= _ <-].
  - destruct (String.eqb _ _); [apply retrieve_server_version_trace|].
    by intros [= _ <-].
  - by intros [= _ <-].
Qed.

End Traces.

(** ** The specification's statements about construction *)

Section ConstructionClaims.

Context (env : Env).

(** C6.  With TLS requested and no base address, construction raises the
    TLS parameter error at once: the trace is left as it was, so no request
    has been sent. *)
Theorem tls_needs_base_url base_url ver timeout tls user_agent num_pools
        log :
  tls_truthy tls = true ->
  str_truthy base_url = false ->
  __init__ env base_url ver timeout tls user_agent num_pools log
  = (inl (TLSParameterError
            "If using TLS, the base_url argument must be provided."), log)
  /\ network_calls
       (snd (__init__ env base_url ver timeout tls user_agent num_pools
                      log))
     = network_calls log.
Proof.
  intros Htls Hurl.
  assert (H : __init__ env base_url ver timeout tls user_agent num_pools log
              = (inl (TLSParameterError
                        "If using TLS, the base_url argument must be provided."),
                 log)).
  { unfold __init__, init_transport. unfold_monad.
    by rewrite Htls, Hurl. }
  by rewrite H.
Qed.

(** Construction, once the transport is chosen and the version resolved to
    a string that compares with the minimum version. *)
Lemma init_after_resolution base_url ver timeout tls user_agent num_pools
      log self1 log1 v log2 older :
  init_transport env base_url timeout tls user_agent num_pools log
  = (inr self1, log1) ->
  resolve_version env ver self1 log1 = (inr (PStr v), log2) ->
  utils.version_lt v (MINIMUM_DOCKER_API_VERSION env) = inr older ->
  __init__ env base_url ver timeout tls user_agent num_pools log
  = (inr (set_version v self1),
     log2 ++ (if older then [Warning (minimum_version_warning env v)]
              else [])).
Proof.
  intros Ht Hv Hlt.
  unfold __init__, bind at 1 2. rewrite Ht, Hv.
  unfold check_minimum_version. unfold_monad. rewrite Hlt.
  destruct older; [reflexivity | by rewrite app_nil_r].
Qed.

(** C8.  Once the transport is chosen and the version resolved to [v],
    construction succeeds with that version; it passes exactly one warning
    to [warnings.warn] when [v] is older than the minimum version, and none
    when it is not. *)
Theorem minimum_version_warns_once base_url ver timeout tls user_agent
        num_pools log self1 log1 v log2 older :
  init_transport env base_url timeout tls user_agent num_pools log
  = (inr self1, log1) ->
  resolve_version env ver self1 log1 = (inr (PStr v), log2) ->
  utils.version_lt v (MINIMUM_DOCKER_API_VERSION env) = inr older ->
  __init__ env base_url ver timeout tls user_agent num_pools log
  = (inr (set_version v self1),
     log2 ++ (if older then [Warning (minimum_version_warning env v)]
              else []))
  /\ warnings
       (snd (__init__ env base_url ver timeout tls user_agent num_pools
                      log))
     = warnings log
       ++ (if older then [minimum_version_warning env v] else []).
Proof.
  intros Ht Hv Hlt.
  pose proof (init_after_resolution _ _ _ _ _ _ _ _ _ _ _ _ Ht Hv Hlt) as H.
  split; [exact H|]. rewrite H. cbn [snd].
  apply init_transport_trace in Ht. subst log1.
  apply resolve_version_trace in Hv.
  unfold warnings in *. rewrite omap_app, Hv. by destruct older.
Qed.

(** C5.  A session constructed with version [auto] asks the
    version-discovery endpoint.  When the answer has ["1.30"] under
    [ApiVersion], the session speaks 1.30 and every versioned URL is the
    base address, [/v1.30] and the path, hence [/v1.30/] and the rest for
    a path that starts with a slash.  When the answer has no [ApiVersion],
    construction raises a [DockerException] that says so. *)
Theorem auto_version_negotiation address v timeout tls user_agent
        num_pools log self1 log1 endpoint resp answer minimum :
  lower v = "auto" ->
  init_transport env address timeout tls user_agent num_pools log
  = (inr self1, log1) ->
  str_format env (version_endpoint env) [] = inr endpoint ->
  (forall kw,
      request env "GET" (base_url self1 +:+ endpoint) kw
      = inr resp) ->
  http_error resp = None ->
  json resp = inr (PDict answer) ->
  utils.parse_version (MINIMUM_DOCKER_API_VERSION env) = Some minimum ->
  (answer !! "ApiVersion" = Some (PStr "1.30") ->
   exists self log',
     __init__ env address (VersionStr v) timeout tls user_agent num_pools
              log
     = (inr self, log')
     /\ _version self = "1.30"
     /\ base_url self = base_url self1
     /\ forall pathfmt args strs path,
         string_args args = inr strs ->
         str_format env pathfmt (map (quote_plus env) strs) = inr path ->
         _url env self pathfmt args true
         = inr (base_url self +:+ "/v1.30" +:+ path)
         /\ forall rest,
             path = "/" +:+ rest ->
             _url env self pathfmt args true
             = inr (base_url self +:+ "/v1.30/" +:+ rest))
  /\ (answer !! "ApiVersion" = None ->
      exists log',
        __init__ env address (VersionStr v) timeout tls user_agent
                 num_pools log
        = (inl (DockerException
                  ("Invalid response from docker daemon: key " +:+ dquote
                   +:+ "ApiVersion" +:+ dquote +:+ " is missing.")),
           log')).
Proof.
  intros Hauto Ht Hfmt Hreq Hok Hjson Hmin.
  assert (Hver : version env self1 false log1
                 = (inr (PDict answer),
                    log1 ++ [NetworkCall "GET"
                               (base_url self1 +:+ endpoint)])).
  { unfold version, _get, send, _url. unfold_monad.
    cbn [string_args map]. rewrite Hfmt, Hreq.
    unfold _result_json, _raise_for_status. by rewrite Hok, Hjson. }
  split; intros Hanswer.
  - assert (Hlt : exists older,
               utils.version_lt "1.30" (MINIMUM_DOCKER_API_VERSION env)
               = inr older).
    { unfold utils.version_lt, utils.compare_version. rewrite Hmin.
      change (utils.parse_version "1.30") with (Some (1%N, 30%N, 0%N)).
      cbn match. destruct (utils.compare_parsed _ _); by eexists. }
    destruct Hlt as [older Hlt].
    assert (Hres : resolve_version env (VersionStr v) self1 log1
                   = (inr (PStr "1.30"),
                      log1 ++ [NetworkCall "GET"
                                 (base_url self1 +:+ endpoint)])).
    { unfold resolve_version. rewrite Hauto.
      change (String.eqb "auto" "auto") with true. cbn iota.
      unfold _retrieve_server_version. cbv beta zeta.
      by rewrite Hver, Hanswer. }
    pose proof (init_after_resolution _ _ _ _ _ _ _ _ _ _ _ _ Ht Hres Hlt)
      as Hinit.
    eexists _, _. split; [exact Hinit|].
    split; [reflexivity|]. split; [reflexivity|].
    intros pathfmt args strs path Hargs Hpath.
    assert (Hurl : _url env (set_version "1.30" self1) pathfmt args true
                   = inr (base_url (set_version "1.30" self1)
                          +:+ "/v1.30" +:+ path)).
    { unfold _url. by rewrite Hargs, Hpath. }
    split; [exact Hurl|]. intros rest ->. exact Hurl.
  - eexists. unfold __init__, bind at 1 2. rewrite Ht.
    unfold resolve_version. rewrite Hauto.
    change (String.eqb "auto" "auto") with true. cbn iota.
    unfold _retrieve_server_version. cbv beta zeta.
    by rewrite Hver, Hanswer.
Qed.

End ConstructionClaims.

(** ** The specification's statement about the stream mode *)

Section ModeClaims.

Context (env : Env).

(** The buffered decoder ends, without raising, on the body of every
    response that is not an HTTP error. *)
Lemma buffer_helper_total fuel res :
  http_error res = None ->
  (length (content res) < fuel)%nat ->
  exists chunks,
    _multiplexed_buffer_helper fuel res = Some (Gen chunks None).
Proof.
  intros Hok Hfuel.
  unfold _multiplexed_buffer_helper, _result_binary, _raise_for_status.
  rewrite Hok, buffer_loop_frames_chunks.
  destruct (buffer_loop_frames_total fuel (content res) 0)
    as ([ys r] & -> & Hr & _); [lia | lia |].
  simpl in Hr. subst r. by eexists.
Qed.

(** The streaming decoder ends on the body of every response. *)
Lemma stream_helper_total fuel self res :
  (length (content res) < fuel)%nat ->
  exists g socket,
    _multiplexed_response_stream_helper env fuel self res
    = Some (g, socket).
Proof.
  intros Hfuel. unfold _multiplexed_response_stream_helper.
  destruct (_get_raw_response_socket env self res); [by eexists _, _|].
  destruct (stream_loop_total fuel (content res) Hfuel) as [g ->].
  by eexists _, _.
Qed.

(** C4.  For a session whose version is a version number and a response
    that is not an HTTP error, [_get_result_tty] returns: when the version
    is older than 1.6, the lines of the response without the empty ones;
    otherwise, for a terminal, the content of the response as it is;
    otherwise, the chunks of one of the two multiplexed decoders. *)
Theorem stream_mode_selection fuel self stream res is_tty pv :
  utils.parse_version (_version self) = Some pv ->
  http_error res = None ->
  (length (content res) < fuel)%nat ->
  exists older r,
    utils.version_lt (_version self) "1.6" = inr older
    /\ _get_result_tty env fuel self stream res is_tty = Some (inr r)
    /\ mode_of r = (if older then Legacy_Line
                    else if is_tty then Raw_Passthrough
                    else Multiplexed)
    /\ match r with
       | OldStream g =>
           g = Gen (List.filter truthy_str (iter_lines res)) None
       | RawStream g => g = Gen (iter_content res) None
       | RawContent b => b = content res
       | MultiplexedStream g socket =>
           _multiplexed_response_stream_helper env fuel self res
           = Some (g, socket)
       | MultiplexedContent b =>
           exists chunks,
             _multiplexed_buffer_helper fuel res = Some (Gen chunks None)
             /\ b = concat chunks
       end.
Proof.
  intros Hv Hok Hfuel.
  destruct (compare_with_1_6 _ _ Hv) as (c & older & Hc & Hlt & Holder).
  exists older. unfold _get_result_tty. rewrite Hc, Holder.
  unfold _stream_raw_result_old, _stream_raw_result, _result_binary,
    _raise_for_status.
  rewrite Hok.
  destruct older; [by eexists|].
  destruct is_tty; [destruct stream; by eexists|].
  destruct stream.
  - destruct (stream_helper_total fuel self res Hfuel)
      as (g & socket & Hg).
    rewrite Hg. by eexists.
  - destruct (buffer_helper_total fuel res Hok Hfuel) as (chunks & Hg).
    rewrite Hg. eexists. repeat split; try done. by exists chunks.
Qed.

End ModeClaims.

(** ** The statements at sample values *)

(** TLS requested with no base address. *)
Lemma tls_needs_base_url_witness :
  __init__ sample_env None (VersionStr "auto") 60 (TlsBool true)
           "docker-sdk-python" 25 []
  = (inl (TLSParameterError
            "If using TLS, the base_url argument must be provided."), []).
Proof.
  apply (tls_needs_base_url sample_env None (VersionStr "auto") 60
           (TlsBool true) "docker-sdk-python" 25 []); reflexivity.
Defined.

(** Version 1.5 against the minimum 1.21: one warning. *)
Lemma minimum_version_warns_once_witness :
  warnings (snd (__init__ sample_env None (VersionStr "1.5") 60
                          (TlsBool false) "docker-sdk-python" 25 []))
  = [minimum_version_warning sample_env "1.5"].
Proof.
  refine (proj2 (minimum_version_warns_once sample_env None
                   (VersionStr "1.5") 60 (TlsBool false) "docker-sdk-python"
                   25 [] sample_session [] "1.5" [] true _ _ _));
    reflexivity.
Defined.

(** A session speaking 1.5 reads its results line by line. *)
Lemma stream_mode_selection_witness :
  exists older r,
    utils.version_lt "1.5" "1.6" = inr older
    /\ _get_result_tty sample_env 1 (sample_client "1.5") true
         (ok_response [] PNone) false
       = Some (inr r)
    /\ mode_of r = (if older then Legacy_Line else Multiplexed)
    /\ match r with
       | OldStream g => g = Gen [] None
       | RawStream g => g = Gen [] None
       | RawContent b => b = []
       | MultiplexedStream g socket =>
           _multiplexed_response_stream_helper
             sample_env 1 (sample_client "1.5") (ok_response [] PNone)
           = Some (g, socket)
       | MultiplexedContent b =>
           exists chunks,
             _multiplexed_buffer_helper 1 (ok_response [] PNone)
             = Some (Gen chunks None)
             /\ b = concat chunks
       end.
Proof.
  apply (stream_mode_selection sample_env 1 (sample_client "1.5") true
           (ok_response [] PNone) false (1%N, 5%N, 0%N)).
  - reflexivity.
  - reflexivity.
  - simpl. lia.
Defined.

(** Construction with [auto] against the sample daemon. *)
Lemma auto_version_negotiation_witness :
  exists self log',
    __init__ sample_env None (VersionStr "auto") 60 (TlsBool false)
             "docker-sdk-python" 25 []
    = (inr self, log')
    /\ _version self = "1.30"
    /\ base_url self = "http://127.0.0.1:2375"
    /\ forall pathfmt args strs path,
        string_args args = inr strs ->
        str_format sample_env pathfmt (map (quote_plus sample_env) strs)
        = inr path ->
        _url sample_env self pathfmt args true
        = inr (base_url self +:+ "/v1.30" +:+ path)
        /\ forall rest,
            path = "/" +:+ rest ->
            _url sample_env self pathfmt args true
            = inr (base_url self +:+ "/v1.30/" +:+ rest).
Proof.
  refine (proj1 (auto_version_negotiation sample_env None "auto" 60
                   (TlsBool false) "docker-sdk-python" 25 [] sample_session
                   [] "/version"
                   (ok_response [] (PDict {[ "ApiVersion" := PStr "1.30" ]}))
                   {[ "ApiVersion" := PStr "1.30" ]} (1%N, 21%N, 0%N)
                   _ _ _ _ _ _ _) _).
  - reflexivity.
  - reflexivity.
  - reflexivity.
  - intros kw. reflexivity.
  - reflexivity.
  - reflexivity.
  - reflexivity.
  - reflexivity.
Defined.

(** A streamed body that stops inside a header: [struct.unpack] raises on
    the 3 bytes read after the last frame. *)
Lemma streamed_short_header_raises :
  stream_loop 3 (encode_frames [(x01, [x61])] ++ [x01; x00; x00])
  = Some (Gen [[x61]] (Some StructError)).
Proof. reflexivity. Qed.

(** * Further properties of the client *)

(** ** What the decoders yield on any body *)

Section DecoderBounds.

Context (env : Env).

Lemma wire_size_cons c chunks :
  wire_size (c :: chunks)
  = Z.of_nat (length c) + STREAM_HEADER_SIZE_BYTES + wire_size chunks.
Proof.
  unfold wire_size. cbn [concat length]. rewrite length_app. lia.
Qed.

(** The chunks of the buffered loop and their headers fit in what the
    buffer holds after [walker]. *)
Lemma buffer_loop_wire_size fuel :
  forall buf walker g,
    0 <= walker ->
    buffer_loop fuel buf (Z.of_nat (length buf)) walker = Some g ->
    wire_size (yielded g) <= Z.max 0 (Z.of_nat (length buf) - walker).
Proof.
  induction fuel as [|fuel IH]; intros buf walker g Hw; [done|].
  cbn [buffer_loop]. unfold STREAM_HEADER_SIZE_BYTES.
  match goal with
  | |- context [?a <? ?b] => destruct (Z.ltb_spec a b) as [Hlt|Hge]
  end.
  { intros [= <-]. unfold wire_size. cbn. lia. }
  destruct (unpack_from_ge8 (Py.slice buf walker (walker + 8)))
    as (c & len & -> & Hlen).
  { apply Nat2Z.inj_le. rewrite slice_length by lia. lia. }
  destruct (buffer_loop fuel buf _ (walker + 8 + len)) as [g'|] eqn:Hg';
    [|done].
  intros [= <-]. apply IH in Hg'; [|lia].
  cbn [yielded gen_yield]. rewrite wire_size_cons.
  rewrite slice_length by lia. unfold STREAM_HEADER_SIZE_BYTES.
  unfold bytes in *. lia.
Qed.

Lemma unpack_exactly_8 (header : bytes) r :
  Py.unpack_BxxxL header = inr r -> length header = 8%nat.
Proof.
  do 9 (destruct header as [|? header]; try done).
Qed.

Lemma unpack_short (header : bytes) :
  (length header < 8)%nat -> Py.unpack_BxxxL header = inl StructError.
Proof.
  intros H. do 8 (destruct header as [|? header]; [done|]).
  simpl in H. lia.
Qed.

(** The chunks of the streaming loop and their headers fit in the body, and
    none of the chunks is empty. *)
Lemma stream_loop_wire_size fuel :
  forall raw g,
    stream_loop fuel raw = Some g ->
    wire_size (yielded g) <= Z.of_nat (length raw)
    /\ Forall (fun c => c <> []) (yielded g).
Proof.
  induction fuel as [|fuel IH]; intros raw g; [done|].
  cbn [stream_loop]. unfold read, STREAM_HEADER_SIZE_BYTES.
  destruct (take (Z.to_nat 8) raw) as [|b header] eqn:Eh.
  { intros [= <-]. unfold wire_size. cbn. split; [lia | constructor]. }
  cbn [Py.truthy_bytes negb].
  destruct (Py.unpack_BxxxL _) as [e|[c len]] eqn:Eu.
  { intros [= <-]. unfold wire_size. cbn. split; [lia | constructor]. }
  apply unpack_exactly_8 in Eu. rewrite <- Eh, length_take in Eu.
  destruct (len =? 0).
  { intros Hg. apply IH in Hg as [Hg1 Hg2]. rewrite length_drop in Hg1.
    split; [lia | done]. }
  destruct (take (Z.to_nat len) _) as [|d data] eqn:Ed.
  { intros [= <-]. unfold wire_size. cbn. split; [lia | constructor]. }
  cbn [Py.truthy_bytes negb].
  destruct (stream_loop fuel _) as [g'|] eqn:Hg'; [|done].
  intros [= <-]. apply IH in Hg' as [Hg1 Hg2]. rewrite !length_drop in Hg1.
  cbn [yielded gen_yield]. rewrite wire_size_cons.
  split; [|by constructor].
  assert (Hd : (length (d :: data) <= Z.to_nat len)%nat
               /\ (length (d :: data)
                   <= length (drop (Z.to_nat 8) raw))%nat).
  { rewrite <- Ed, length_take. lia. }
  rewrite length_drop in Hd. unfold STREAM_HEADER_SIZE_BYTES. lia.
Qed.

(** The buffered loop gets through well-formed frames, whatever follows
    them, and goes on from there. *)
Lemma buffer_loop_frames_then fs :
  forall fuel pre rest,
    encodable fs ->
    let buf := pre ++ encode_frames fs ++ rest in
    buffer_loop (length fs + fuel) buf (Z.of_nat (length buf))
                (Z.of_nat (length pre))
    = gen_prepend (map snd fs)
        <$> buffer_loop fuel buf (Z.of_nat (length buf))
              (Z.of_nat (length (pre ++ encode_frames fs))).
Proof.
  induction fs as [|[c p] fs IH]; intros fuel pre rest Hfs buf.
  - subst buf. cbn [encode_frames map concat length plus app].
    rewrite app_nil_r.
    destruct (buffer_loop fuel _ _ _) as [[ys r]|]; reflexivity.
  - apply Forall_cons in Hfs as [Hp Hfs]. simpl in Hp.
    subst buf. cbn [length plus].
    rewrite encode_frames_cons, <- (app_assoc (encode_frame _)).
    rewrite buffer_loop_step by done.
    specialize (IH fuel (pre ++ encode_frame (c, p)) rest Hfs).
    cbv zeta in IH. rewrite <- !app_assoc in IH.
    rewrite !(app_assoc pre (encode_frame (c, p))) .
    rewrite <- !(app_assoc pre (encode_frame (c, p))) at 1 2.
    etrans; [exact (f_equal (fmap (M:=option) (gen_yield p)) IH)|].
    rewrite <- !app_assoc.
    destruct (buffer_loop fuel _ _ _) as [[ys r]|]; reflexivity.
Qed.

(** The streaming loop gets through well-formed frames, whatever follows
    them, and goes on from there. *)
Lemma stream_loop_frames_then fs :
  forall fuel rest,
    encodable fs ->
    stream_loop (length fs + fuel) (encode_frames fs ++ rest)
    = gen_prepend (List.filter Py.truthy_bytes (map snd fs))
        <$> stream_loop fuel rest.
Proof.
  induction fs as [|[c p] fs IH]; intros fuel rest Hfs.
  - cbn. destruct (stream_loop fuel rest) as [[ys r]|]; reflexivity.
  - apply Forall_cons in Hfs as [Hp Hfs]. simpl in Hp.
    cbn [length plus].
    rewrite encode_frames_cons, <- app_assoc, stream_loop_step by done.
    rewrite IH by done. cbn [map List.filter snd].
    destruct (Py.truthy_bytes p), (stream_loop fuel rest) as [[ys r]|];
      reflexivity.
Qed.

End DecoderBounds.

Ltac gen_simpl :=
  cbn [fmap option_fmap option_map mbind option_bind];
  unfold gen_prepend, gen_raise, gen_return, gen_yield;
  cbn [yielded raised fst snd]; rewrite ?app_nil_r.

Section DecoderExtras.

Context (env : Env).

(** On every body that is not an HTTP error the buffered decoder ends
    without raising, and its chunks, with 8 bytes of header for each, fit in
    the body: it yields at most one chunk per 8 bytes and never more payload
    than the body holds. *)
Theorem buffered_chunks_fit fuel resp :
  http_error resp = None ->
  (length (content resp) < fuel)%nat ->
  exists chunks,
    _multiplexed_buffer_helper fuel resp = Some (Gen chunks None)
    /\ wire_size chunks <= Z.of_nat (length (content resp)).
Proof.
  intros Hok Hfuel.
  destruct (buffer_helper_total fuel resp Hok Hfuel) as [chunks Hg].
  exists chunks. split; [done|].
  unfold _multiplexed_buffer_helper, _result_binary, _raise_for_status in Hg.
  rewrite Hok in Hg.
  apply buffer_loop_wire_size in Hg; [|lia]. cbn [yielded] in Hg. lia.
Qed.

(** On every body the streaming decoder ends; none of its chunks is empty;
    and its chunks, with 8 bytes of header for each, fit in the body. *)
Theorem streamed_chunks_fit fuel self resp :
  (length (content resp) < fuel)%nat ->
  exists g socket,
    _multiplexed_response_stream_helper env fuel self resp = Some (g, socket)
    /\ Forall (fun c => c <> []) (yielded g)
    /\ wire_size (yielded g) <= Z.of_nat (length (content resp)).
Proof.
  intros Hfuel.
  destruct (stream_helper_total env fuel self resp Hfuel)
    as (g & socket & Hg).
  exists g, socket. split; [done|].
  unfold _multiplexed_response_stream_helper in Hg.
  destruct (_get_raw_response_socket env self resp).
  - injection Hg as <- _. unfold wire_size. cbn. split; [constructor | lia].
  - destruct (stream_loop fuel (content resp)) as [g'|] eqn:Hg'; [|done].
    injection Hg as <- _. by apply stream_loop_wire_size in Hg' as [? ?].
Qed.

(** A streamed body that stops inside a header, after well-formed frames:
    the frames' non-empty payloads are yielded and then [struct.unpack]
    raises on the 1 to 7 bytes read. *)
Theorem streamed_cut_in_header fuel self resp socket fs tail :
  encodable fs ->
  tail <> [] ->
  (length tail < 8)%nat ->
  _get_raw_response_socket env self resp = inr socket ->
  content resp = encode_frames fs ++ tail ->
  (length fs < fuel)%nat ->
  _multiplexed_response_stream_helper env fuel self resp
  = Some (Gen (List.filter Py.truthy_bytes (map snd fs)) (Some StructError),
          Some (_disable_socket_timeout socket)).
Proof.
  intros Hfs Hne Htail Hsock Hbody Hfuel.
  unfold _multiplexed_response_stream_helper. rewrite Hsock, Hbody.
  replace fuel with (length fs + S (fuel - S (length fs)))%nat by lia.
  rewrite stream_loop_frames_then by done.
  cbn [stream_loop]. unfold read, STREAM_HEADER_SIZE_BYTES.
  rewrite take_ge by lia.
  destruct tail as [|b tail]; [done|]. cbn [Py.truthy_bytes negb].
  rewrite unpack_short by done. by gen_simpl.
Qed.

(** A body that stops inside a payload, after well-formed frames and a
    complete header: both decoders end without raising.  The buffered one
    yields the part of the payload that is there, even when it is empty; the
    streaming one yields it unless it is empty. *)
Theorem cut_in_payload fuel self resp socket fs c p1 p2 :
  encodable fs ->
  p2 <> [] ->
  Z.of_nat (length (p1 ++ p2)) < 2 ^ 32 ->
  http_error resp = None ->
  _get_raw_response_socket env self resp = inr socket ->
  content resp = encode_frames fs ++ frame_header c (p1 ++ p2) ++ p1 ->
  (length fs + 1 < fuel)%nat ->
  _multiplexed_buffer_helper fuel resp
  = Some (Gen (map snd fs ++ [p1]) None)
  /\ fst <$> _multiplexed_response_stream_helper env fuel self resp
     = Some (Gen (List.filter Py.truthy_bytes (map snd fs ++ [p1])) None).
Proof.
  intros Hfs Hp2 Hlen Hok Hsock Hbody Hfuel.
  assert (Hp : (length p1 < length (p1 ++ p2))%nat).
  { rewrite length_app. destruct p2; [done | simpl; lia]. }
  split.
  - unfold _multiplexed_buffer_helper, _result_binary, _raise_for_status.
    rewrite Hok, Hbody.
    replace fuel with (length fs + S (S (fuel - S (S (length fs)))))%nat
      by lia.
    pose proof (buffer_loop_frames_then fs
                  (S (S (fuel - S (S (length fs))))) []
                  (frame_header c (p1 ++ p2) ++ p1) Hfs) as H.
    cbv zeta in H. cbn [app length] in H.
    change (Z.of_nat 0) with 0 in H. rewrite H. clear H.
    set (buf := encode_frames fs ++ frame_header c (p1 ++ p2) ++ p1).
    cbn [buffer_loop]. unfold STREAM_HEADER_SIZE_BYTES. subst buf.
    rewrite !length_app, frame_header_length.
    match goal with
    | |- context [?a <? ?b] => destruct (Z.ltb_spec a b); [lia|]
    end.
    replace (Py.slice _ (Z.of_nat (length (encode_frames fs)))
               (Z.of_nat (length (encode_frames fs)) + 8))
      with (frame_header c (p1 ++ p2)).
    2:{ symmetry.
        apply (slice_app_middle (encode_frames fs)
                 (frame_header c (p1 ++ p2)) p1). }
    rewrite unpack_from_frame_header by done.
    replace (Py.slice _ _ _) with p1.
    2:{ rewrite slice_take_drop by lia.
        rewrite app_assoc.
        replace (Z.to_nat (Z.of_nat (length (encode_frames fs)) + 8))
          with (length (encode_frames fs ++ frame_header c (p1 ++ p2)))
          by (rewrite length_app, frame_header_length; lia).
        rewrite drop_app_length. rewrite take_ge; [done|]. lia. }
    match goal with
    | |- context [?a <? ?b] => destruct (Z.ltb_spec a b); [|lia]
    end.
    by gen_simpl.
  - unfold _multiplexed_response_stream_helper. rewrite Hsock, Hbody.
    replace fuel with (length fs + S (S (fuel - S (S (length fs)))))%nat
      by lia.
    rewrite stream_loop_frames_then by done.
    cbn [stream_loop]. unfold read, STREAM_HEADER_SIZE_BYTES.
    change (Z.to_nat 8) with (length (frame_header c (p1 ++ p2))).
    rewrite take_app_length, drop_app_length.
    change (Py.truthy_bytes (frame_header c (p1 ++ p2))) with true.
    cbn [negb]. rewrite unpack_frame_header by done.
    match goal with
    | |- context [?a =? ?b] => destruct (Z.eqb_spec a b) as [E|_]; [lia|]
    end.
    rewrite take_ge, drop_ge by lia.
    rewrite List.filter_app. cbn [List.filter].
    destruct p1 as [|b p1]; cbn [Py.truthy_bytes negb]; by gen_simpl.
Qed.

Lemma concat_filter_truthy (chunks : list bytes) :
  concat (List.filter Py.truthy_bytes chunks) = concat chunks.
Proof.
  induction chunks as [|[|b c] chunks IH]; cbn; [done | done |].
  by rewrite IH.
Qed.

(** For a session at 1.6 or later and a target without terminal,
    [_get_result_tty] on a body of well-formed frames gives, unstreamed, the
    payloads of both channels joined in the order of the frames, and,
    streamed, chunks that join to the same bytes. *)
Theorem multiplexed_result_joins_payloads fuel self res socket fs c :
  utils.compare_version "1.6" (_version self) = inr c ->
  0 <= c ->
  encodable fs ->
  http_error res = None ->
  content res = encode_frames fs ->
  _get_raw_response_socket env self res = inr socket ->
  (length fs < fuel)%nat ->
  _get_result_tty env fuel self false res false
  = Some (inr (MultiplexedContent (concat (map snd fs))))
  /\ exists chunks,
      _get_result_tty env fuel self true res false
      = Some (inr (MultiplexedStream
                     (Gen chunks None)
                     (Some (_disable_socket_timeout socket))))
      /\ concat chunks = concat (map snd fs).
Proof.
  intros Hc Hpos Hfs Hok Hbody Hsock Hfuel.
  unfold _get_result_tty. rewrite Hc.
  destruct (Z.ltb_spec c 0); [lia|].
  unfold _raise_for_status. rewrite Hok. split.
  - rewrite (buffer_helper_encoded fuel res fs []); try done.
    + simpl. lia.
    + by rewrite app_nil_r.
  - unfold _multiplexed_response_stream_helper.
    rewrite Hsock, Hbody, stream_loop_encoded by done.
    eexists. split; [reflexivity|]. apply concat_filter_truthy.
Qed.

End DecoderExtras.

(** A body of 8 zero bytes: one empty chunk, 8 bytes on the wire. *)
Lemma buffered_chunks_fit_witness :
  exists chunks,
    _multiplexed_buffer_helper 9
      (ok_response [x00; x00; x00; x00; x00; x00; x00; x00] PNone)
    = Some (Gen chunks None)
    /\ wire_size chunks <= 8.
Proof.
  apply (buffered_chunks_fit 9
           (ok_response [x00; x00; x00; x00; x00; x00; x00; x00] PNone)).
  - reflexivity.
  - simpl. lia.
Defined.

(** A streamed frame of one byte. *)
Lemma streamed_chunks_fit_witness :
  exists g socket,
    _multiplexed_response_stream_helper sample_env 10 (sample_client "1.30")
      (ok_response (encode_frames [(x01, [x61])]) PNone)
    = Some (g, socket)
    /\ Forall (fun c => c <> []) (yielded g)
    /\ wire_size (yielded g) <= 9.
Proof.
  apply (streamed_chunks_fit sample_env 10 (sample_client "1.30")
           (ok_response (encode_frames [(x01, [x61])]) PNone)).
  simpl. lia.
Defined.

(** Two frames and 3 bytes of a third header, streamed. *)
Lemma streamed_cut_in_header_witness :
  _multiplexed_response_stream_helper sample_env 3 (sample_client "1.30")
    (ok_response (encode_frames [(x01, [x61]); (x02, [x62; x63])]
                  ++ [x01; x00; x00]) PNone)
  = Some (Gen [[x61]; [x62; x63]] (Some StructError),
          Some (_disable_socket_timeout sample_socket)).
Proof.
  apply (streamed_cut_in_header sample_env 3 (sample_client "1.30") _
           sample_socket [(x01, [x61]); (x02, [x62; x63])]
           [x01; x00; x00]).
  - exact sample_frames_encodable.
  - discriminate.
  - simpl. lia.
  - reflexivity.
  - reflexivity.
  - simpl. lia.
Defined.

(** A frame that declares 2 bytes and brings 1. *)
Lemma cut_in_payload_witness :
  _multiplexed_buffer_helper 2
    (ok_response (frame_header x01 [x61; x62] ++ [x61]) PNone)
  = Some (Gen [[x61]] None).
Proof.
  apply (cut_in_payload sample_env 2 (sample_client "1.30") _ sample_socket
           [] x01 [x61] [x62]).
  - constructor.
  - discriminate.
  - simpl. lia.
  - reflexivity.
  - reflexivity.
  - reflexivity.
  - simpl. lia.
Defined.

(** Two frames, one on each channel, read unstreamed at version 1.30. *)
Lemma multiplexed_result_joins_payloads_witness :
  _get_result_tty sample_env 3 (sample_client "1.30") false
    (ok_response (encode_frames [(x01, [x61]); (x02, [x62; x63])]) PNone)
    false
  = Some (inr (MultiplexedContent [x61; x62; x63])).
Proof.
  apply (multiplexed_result_joins_payloads sample_env 3
           (sample_client "1.30") _ sample_socket
           [(x01, [x61]); (x02, [x62; x63])] 1).
  - reflexivity.
  - lia.
  - exact sample_frames_encodable.
  - reflexivity.
  - reflexivity.
  - reflexivity.
  - simpl. lia.
Defined.

(** ** Socket timeouts, a second time *)

Lemma disable_timeout_of_idempotent s :
  disable_timeout_of (disable_timeout_of s) = disable_timeout_of s.
Proof.
  destruct s as [[a b [t|] i]|]; [| |reflexivity]; destruct a, b;
    try reflexivity.
  unfold disable_timeout_of.
  cbn [has_settimeout has_gettimeout sock_timeout negb].
  destruct (Qeq_bool t 0) eqn:E;
    cbn [has_settimeout has_gettimeout sock_timeout negb settimeout];
    by rewrite ?E.
Qed.

(** A turn of the loop looks at the socket itself, not at its [_sock]. *)
Lemma disable_timeout_of_with_sock s inner :
  disable_timeout_of (Some (with_sock s inner))
  = (fun s' => with_sock s' inner) <$> disable_timeout_of (Some s).
Proof.
  destruct s as [a b [t|] i]; destruct a, b; try reflexivity.
  unfold disable_timeout_of, with_sock.
  cbn [has_settimeout has_gettimeout sock_timeout negb].
  by destruct (Qeq_bool t 0).
Qed.

(** Disabling the timeouts of a socket that went through
    [_disable_socket_timeout] already changes nothing more. *)
Theorem disable_socket_timeout_idempotent socket :
  _disable_socket_timeout (_disable_socket_timeout socket)
  = _disable_socket_timeout socket.
Proof.
  assert (Hshape : forall s,
             exists s1, disable_timeout_of (Some s) = Some s1
                        /\ _disable_socket_timeout s
                           = with_sock s1 (disable_timeout_of (_sock s))).
  { intros s. destruct (disable_timeout_of_rule s) as (s1 & H1 & _ & _).
    exists s1. split; [done|].
    unfold _disable_socket_timeout. cbn [map]. by rewrite H1. }
  destruct (Hshape socket) as (s1 & H1 & ->).
  set (inner' := disable_timeout_of (_sock socket)).
  destruct (Hshape (with_sock s1 inner')) as (s2 & H2 & ->).
  rewrite disable_timeout_of_with_sock in H2.
  pose proof (disable_timeout_of_idempotent (Some socket)) as Hidem.
  rewrite H1 in Hidem. rewrite Hidem in H2. injection H2 as <-.
  unfold with_sock at 1 3.
  cbn [has_settimeout has_gettimeout sock_timeout _sock].
  subst inner'. by rewrite disable_timeout_of_idempotent.
Qed.

(** ** URLs *)

Section UrlExtras.

Context (env : Env).

(** [string_args] stops at the first argument that is not a string. *)
Lemma string_args_bad (args : list pyvalue) :
  existsb (fun a => negb (is_str a)) args = true ->
  exists before bad after,
    args = map PStr before ++ bad :: after
    /\ is_str bad = false
    /\ string_args args = inl bad.
Proof.
  induction args as [|a args IH]; [done|].
  cbn [existsb].
  destruct (is_str a) eqn:Ea.
  2:{ intros _. exists [], a, args. cbn [map app].
      split; [done|]. split; [done|]. by destruct a. }
  destruct a as [| | |s| |]; try done.
  cbn [negb orb]. intros H.
  destruct (IH H) as (before & bad & after & -> & Hbad & Hs).
  exists (s :: before), bad, after. cbn [map app string_args].
  by rewrite Hs.
Qed.

(** [_url] refuses arguments that are not strings: with one among them, it
    raises the [ValueError] that names the first such argument, versioned or
    not, whatever the path template, and without formatting anything. *)
Theorem url_rejects_non_strings self pathfmt (args : list pyvalue)
        versioned_api :
  existsb (fun a => negb (is_str a)) args = true ->
  exists before bad after,
    args = map PStr before ++ bad :: after
    /\ is_str bad = false
    /\ _url env self pathfmt args versioned_api
       = inl (ValueError ("Expected a string but found "
                          +:+ str_value env bad +:+ " ("
                          +:+ type_name env bad +:+ ") instead")).
Proof.
  intros H. destruct (string_args_bad args H)
    as (before & bad & after & Hargs & Hbad & Hs).
  exists before, bad, after. split; [done|]. split; [done|].
  unfold _url. by rewrite Hs.
Qed.

End UrlExtras.

(** A container id given as a number. *)
Lemma url_rejects_non_strings_witness :
  exists before bad after,
    [PStr "a"; PInt 7] = map PStr before ++ bad :: after
    /\ is_str bad = false
    /\ _url sample_env (sample_client "1.30") "/containers/{0}/{1}"
            [PStr "a"; PInt 7] true
       = inl (ValueError ("Expected a string but found "
                          +:+ str_value sample_env bad +:+ " ("
                          +:+ type_name sample_env bad +:+ ") instead")).
Proof.
  apply (url_rejects_non_strings sample_env (sample_client "1.30")
           "/containers/{0}/{1}" [PStr "a"; PInt 7] true).
  reflexivity.
Defined.

(** ** Posting JSON, further *)

Section PostJsonExtras.

Context (env : Env).

(** A dict without [None] values goes through the loop unchanged. *)
Lemma without_none_items_id (data : gmap string pyvalue) :
  (forall k, data !! k <> Some PNone) ->
  without_none_items data = data.
Proof.
  intros H. apply map_eq. intros k.
  rewrite without_none_items_lookup. specialize (H k).
  destruct (data !! k) as [[]|]; done.
Qed.

Lemma without_none_items_none_free (data : gmap string pyvalue) k :
  without_none_items data !! k <> Some PNone.
Proof.
  rewrite without_none_items_lookup.
  destruct (data !! k) as [[]|]; done.
Qed.

(** The body [_post_json] serialises is never [None] and, when it is the
    dict built from a dict, has no [None] among its values; building it
    again from itself changes nothing; [None] gives the empty dict, and a
    dict without [None] values, like any value that is neither [None] nor a
    dict, is serialised as it is. *)
Theorem post_json_data_never_null (data : pyvalue) :
  post_json_data data <> PNone
  /\ (forall d d2 k, data = PDict d -> post_json_data data = PDict d2 ->
                     d2 !! k <> Some PNone)
  /\ post_json_data (post_json_data data) = post_json_data data
  /\ (data = PNone -> post_json_data data = PDict ∅)
  /\ ((forall d, data = PDict d -> forall k, d !! k <> Some PNone) ->
      data <> PNone -> post_json_data data = data).
Proof.
  split; [by destruct data|].
  split.
  { intros d d2 k -> [= <-]. apply without_none_items_none_free. }
  split.
  { destruct data; try reflexivity. cbn [post_json_data].
    f_equal. apply without_none_items_id.
    intros k. apply without_none_items_none_free. }
  split; [by intros ->|].
  intros H Hne. destruct data; try done. cbn [post_json_data].
  f_equal. apply without_none_items_id. by apply H.
Qed.

End PostJsonExtras.

(** ** Attaching *)

(** [_attach_params] never returns an empty dict: [None] and the empty dict
    both give the three defaults, and any other override is returned as it
    is. *)
Theorem attach_params_never_empty (override : option (gmap string pyvalue)) :
  _attach_params override <> ∅
  /\ (forall d, override = Some d -> d <> ∅ -> _attach_params override = d)
  /\ (override = None \/ override = Some ∅ ->
      _attach_params override
      = {[ "stdout" := PInt 1; "stderr" := PInt 1; "stream" := PInt 1 ]}).
Proof.
  assert (Hdef : ({[ "stdout" := PInt 1; "stderr" := PInt 1;
                     "stream" := PInt 1 ]} : gmap string pyvalue) <> ∅).
  { intros H. apply (f_equal (fun m => m !! "stdout")) in H.
    by rewrite lookup_insert_eq, lookup_empty in H. }
  unfold _attach_params. split; [|split].
  - destruct override as [d|]; [|done]. by destruct (decide (d = ∅)).
  - intros d -> Hd. by destruct (decide (d = ∅)).
  - intros [->| ->]; [done|]. by destruct (decide _).
Qed.

Lemma prefix_append s1 s2 : String.prefix s1 (s1 +:+ s2) = true.
Proof.
  induction s1 as [|a s1 IH]; [by destruct s2|].
  change (String a s1 +:+ s2) with (String a (s1 +:+ s2)).
  cbn [String.prefix]. by destruct (ascii_dec a a).
Qed.

Lemma string_drop_append s1 s2 :
  string_drop (String.length s1) (s1 +:+ s2) = s2.
Proof. induction s1 as [|a s1 IH]; [done | exact IH]. Qed.

(** An occurrence at the very start is the one replaced. *)
Lemma replace_first_here old new s :
  replace_first old new (old +:+ s) = new +:+ s.
Proof.
  destruct (old +:+ s) eqn:E; cbn [replace_first]; rewrite <- E;
    by rewrite prefix_append, string_drop_append.
Qed.

(** Without an occurrence at the start, the search moves on. *)
Lemma replace_first_later old new a s :
  String.prefix old (String a s) = false ->
  replace_first old new (String a s) = String a (replace_first old new s).
Proof. intros H. cbn [replace_first]. by rewrite H. Qed.

Ltac replace_first_later_steps :=
  repeat match goal with
         | |- context [replace_first ?o ?n (String ?a ?s)] =>
             rewrite (replace_first_later o n a s) by reflexivity
         end.

Section AttachExtras.

Context (env : Env).
Context {connection : Type}.
Context (prepare_url : string -> gmap string pyvalue -> result string).
Context (create_connection : string -> result connection).

(** [_attach_websocket] connects to the prepared URL with its scheme
    changed: [http://] at its start becomes [ws://] and [https://] becomes
    [wss://].  Each replacement takes the leftmost occurrence wherever it
    is, so the first occurrence of the other scheme in the rest of the URL
    is rewritten as well; and the URL of a session on a Unix socket or a
    named pipe, which starts with [http+docker://], keeps its scheme. *)
Theorem attach_websocket_scheme self container params url full :
  _url env self "/containers/{0}/attach/ws" [container] true = inr url ->
  prepare_url url (_attach_params params) = inr full ->
  (forall rest,
      full = "http://" +:+ rest ->
      _attach_websocket env prepare_url create_connection self container
                        params
      = create_connection
          ("ws://" +:+ replace_first "https://" "wss://" rest))
  /\ (forall rest,
         full = "https://" +:+ rest ->
         _attach_websocket env prepare_url create_connection self container
                           params
         = create_connection
             ("wss://" +:+ replace_first "http://" "ws://" rest))
  /\ (forall rest,
         full = "http+docker://" +:+ rest ->
         _attach_websocket env prepare_url create_connection self container
                           params
         = create_connection
             ("http+docker://"
              +:+ replace_first "https://" "wss://"
                    (replace_first "http://" "ws://" rest))).
Proof.
  intros Hurl Hfull. unfold _attach_websocket, _create_websocket_connection.
  rewrite Hurl, Hfull.
  split; [|split]; intros rest ->;
    apply (f_equal create_connection).
  - rewrite replace_first_here. cbv [String.append].
    by replace_first_later_steps.
  - cbv [String.append]. replace_first_later_steps.
    exact (replace_first_here "https://" "wss://" _).
  - cbv [String.append]. by replace_first_later_steps.
Qed.

End AttachExtras.

(** A websocket to a TCP daemon: the scheme becomes [ws://]. *)
Lemma attach_websocket_scheme_witness :
  _attach_websocket sample_env (fun url _ => inr url)
                    (fun url => inr url) (sample_client "1.30")
                    (PStr "abc") None
  = inr "ws://127.0.0.1:2375/v1.30/containers/{0}/attach/ws".
Proof.
  refine (proj1 (attach_websocket_scheme sample_env (fun url _ => inr url)
                   (fun url => inr url) (sample_client "1.30") (PStr "abc")
                   None
                   "http://127.0.0.1:2375/v1.30/containers/{0}/attach/ws"
                   "http://127.0.0.1:2375/v1.30/containers/{0}/attach/ws"
                   _ _)
                "127.0.0.1:2375/v1.30/containers/{0}/attach/ws" _);
    reflexivity.
Defined.

(** ** Adapters *)

Section AdapterLemmas.

Lemma lower_append s1 s2 : lower (s1 +:+ s2) = lower s1 +:+ lower s2.
Proof.
  induction s1 as [|a s1 IH]; [done|].
  change (String a s1 +:+ s2) with (String a (s1 +:+ s2)).
  cbn [lower]. by rewrite IH.
Qed.

(** The lookup of [requests]: an adapter it returns is mounted under a
    prefix that matches, and it returns one when some mounted prefix
    matches. *)
Lemma session_get_adapter_spec self url :
  match session_get_adapter self url with
  | Some a =>
      exists p, adapters self !! p = Some a /\ adapter_matches url p = true
  | None =>
      forall p a, adapters self !! p = Some a -> adapter_matches url p = false
  end.
Proof.
  unfold session_get_adapter.
  set (f := fun (pa : string * adapter) (best : option (string * adapter)) =>
              if adapter_matches url (fst pa) then
                match best with
                | Some (p, _) =>
                    if (String.length p <? String.length (fst pa))%nat
                    then Some pa else best
                | None => Some pa
                end
              else best).
  assert (H : forall l : list (string * adapter),
             match foldr f None l with
             | Some pa => pa ∈ l /\ adapter_matches url (fst pa) = true
             | None => forall pa, pa ∈ l ->
                                  adapter_matches url (fst pa) = false
             end).
  { induction l as [|pa l IH]; [by intros pa Hpa%elem_of_nil|].
    cbn [foldr]. unfold f at 1.
    destruct (adapter_matches url (fst pa)) eqn:Em.
    - destruct (foldr f None l) as [[p a]|].
      + destruct (_ <? _)%nat.
        * split; [left | done].
        * destruct IH as [IH1 IH2]. split; [by right | done].
      + split; [left | done].
    - destruct (foldr f None l) as [pa'|].
      + destruct IH as [IH1 IH2]. split; [by right | done].
      + intros pa' [->|Hin]%elem_of_cons; [done | by apply IH]. }
  specialize (H (map_to_list (adapters self))).
  destruct (foldr f None _) as [[p a]|]; cbn [fmap option_fmap option_map snd].
  - destruct H as [Hin Hm]. apply elem_of_map_to_list in Hin. by exists p.
  - intros p a Hp. apply (H (p, a)). by apply elem_of_map_to_list.
Qed.

(** When every matching prefix carries the same adapter, that adapter is the
    one found. *)
Lemma get_adapter_unique self url p a :
  adapters self !! p = Some a ->
  adapter_matches url p = true ->
  (forall p' a', adapters self !! p' = Some a' ->
                 adapter_matches url p' = true -> a' = a) ->
  get_adapter self url = Some a.
Proof.
  intros Hp Hm Huniq. unfold get_adapter.
  pose proof (session_get_adapter_spec self url) as H.
  destruct (session_get_adapter self url) as [a'|].
  - destruct H as (p' & Hp' & Hm'). f_equal. by eapply Huniq.
  - rewrite (H p a Hp) in Hm. done.
Qed.

End AdapterLemmas.

(** ** The transport of a session *)

Section TransportExtras.

Context (env : Env).

(** The session before its transport is chosen. *)
Lemma init_transport_unfold address timeout tls user_agent num_pools url log :
  tls_truthy tls && negb (str_truthy address) = false ->
  parse_host env address (IS_WINDOWS_PLATFORM env) (tls_truthy tls)
  = inr url ->
  init_transport env address timeout tls user_agent num_pools log
  = select_transport env url timeout tls num_pools
      (set_auth_configs (load_config env)
         (set_headers (<["User-Agent" := user_agent]> (default_headers env))
            (set_timeout timeout (new_session env)))) log.
Proof.
  intros Htls Hparse. unfold init_transport. rewrite Htls.
  unfold bind, lift. by rewrite Hparse.
Qed.

(** A session on a Unix socket: whatever the TLS argument, it is addressed
    as [http+docker://localunixsocket], and the Unix adapter is the only one
    left: [get_adapter] returns it for every URL. *)
Theorem unix_session_has_one_adapter address timeout tls user_agent
        num_pools url log :
  tls_truthy tls && negb (str_truthy address) = false ->
  parse_host env address (IS_WINDOWS_PLATFORM env) (tls_truthy tls)
  = inr url ->
  String.prefix "http+unix://" url = true ->
  exists self,
    init_transport env address timeout tls user_agent num_pools log
    = (inr self, log)
    /\ base_url self = "http+docker://localunixsocket"
    /\ adapters self !! "http://" = None
    /\ adapters self !! "https://" = None
    /\ forall u,
        get_adapter self u = Some (UnixAdapter url timeout num_pools).
Proof.
  intros Htls Hparse Hunix.
  rewrite (init_transport_unfold _ _ _ _ _ url) by done.
  unfold select_transport. rewrite Hunix. unfold ret.
  eexists. split; [reflexivity|]. split; [reflexivity|].
  cbn [adapters set_base_url _unmount set_adapters mount set_custom_adapter
       set_auth_configs set_headers set_timeout new_session foldl
       _custom_adapter].
  split; [by rewrite lookup_delete_ne, lookup_delete_eq|].
  split; [by rewrite lookup_delete_eq|].
  intros u. unfold get_adapter.
  pose proof (session_get_adapter_spec
                (set_base_url "http+docker://localunixsocket"
                   (_unmount ["http://"; "https://"]
                      (mount "http+docker://"
                         (UnixAdapter url timeout num_pools)
                         (set_custom_adapter
                            (UnixAdapter url timeout num_pools)
                            (set_auth_configs (load_config env)
                               (set_headers
                                  (<["User-Agent" := user_agent]>
                                     (default_headers env))
                                  (set_timeout timeout
                                     (new_session env))))))))
                u) as H.
  destruct (session_get_adapter _ u) as [a|]; [|reflexivity].
  destruct H as (p & Hp & _).
  cbn [adapters set_base_url _unmount set_adapters mount set_custom_adapter
       set_auth_configs set_headers set_timeout new_session foldl] in Hp.
  destruct (decide (p = "https://")) as [->|H1];
    [by rewrite lookup_delete_eq in Hp|].
  rewrite lookup_delete_ne in Hp by done.
  destruct (decide (p = "http://")) as [->|H2];
    [by rewrite lookup_delete_eq in Hp|].
  rewrite lookup_delete_ne in Hp by done.
  destruct (decide (p = "http+docker://")) as [->|H3].
  - rewrite lookup_insert_eq in Hp. by injection Hp as <-.
  - rewrite lookup_insert_ne in Hp by done.
    rewrite lookup_insert_ne in Hp by done.
    by rewrite lookup_singleton_ne in Hp.
Qed.

Lemma adapter_matches_here p rest :
  lower p = p -> adapter_matches (p +:+ rest) p = true.
Proof.
  intros Hp. unfold adapter_matches.
  rewrite lower_append, Hp. apply prefix_append.
Qed.

Ltac adapter_lookup_cases Hp p :=
  repeat match type of Hp with
         | <[?k := _]> _ !! p = Some _ =>
             destruct (decide (p = k)) as [->|?];
             [rewrite lookup_insert_eq in Hp
             |rewrite lookup_insert_ne in Hp by done]
         | {[?k := _]} !! p = Some _ =>
             destruct (decide (p = k)) as [->|?];
             [rewrite lookup_singleton_eq in Hp
             |rewrite lookup_singleton_ne in Hp by done]
         end.

(** A session on a named pipe, on Windows with the adapter installed: it is
    addressed as [http+docker://localnpipe]; the named-pipe adapter serves
    the URLs with that scheme; and, since nothing is unmounted here, the
    stock adapter still serves the [http://] URLs. *)
Theorem npipe_session_adapters address timeout tls user_agent num_pools url
        log :
  tls_truthy tls && negb (str_truthy address) = false ->
  parse_host env address (IS_WINDOWS_PLATFORM env) (tls_truthy tls)
  = inr url ->
  String.prefix "http+unix://" url = false ->
  String.prefix "npipe://" url = true ->
  IS_WINDOWS_PLATFORM env = true ->
  NpipeAdapter_imported env = true ->
  exists self,
    init_transport env address timeout tls user_agent num_pools log
    = (inr self, log)
    /\ base_url self = "http+docker://localnpipe"
    /\ (forall rest,
           get_adapter self ("http+docker://" +:+ rest)
           = Some (NpipeAdapter url timeout num_pools))
    /\ (forall rest,
           get_adapter self ("http://" +:+ rest) = Some HTTPAdapter).
Proof.
  intros Htls Hparse Hunix Hnpipe Hwin Himp.
  rewrite (init_transport_unfold _ _ _ _ _ url) by done.
  unfold select_transport. rewrite Hunix, Hnpipe, Hwin, Himp.
  cbn [negb]. unfold ret.
  eexists. split; [reflexivity|]. split; [reflexivity|].
  split; intros rest.
  - apply (get_adapter_unique _ _ "http+docker://").
    + apply lookup_insert_eq.
    + by apply adapter_matches_here.
    + intros p a Hp Hm.
      cbn [adapters set_base_url set_adapters mount set_custom_adapter
           set_auth_configs set_headers set_timeout new_session] in Hp.
      unfold adapter_matches in Hm. rewrite lower_append in Hm.
      adapter_lookup_cases Hp p; by simplify_eq.
  - apply (get_adapter_unique _ _ "http://").
    + cbn [adapters set_base_url set_adapters mount set_custom_adapter
           set_auth_configs set_headers set_timeout new_session].
      by rewrite lookup_insert_ne, lookup_insert_eq.
    + by apply adapter_matches_here.
    + intros p a Hp Hm.
      cbn [adapters set_base_url set_adapters mount set_custom_adapter
           set_auth_configs set_headers set_timeout new_session] in Hp.
      unfold adapter_matches in Hm. rewrite lower_append in Hm.
      adapter_lookup_cases Hp p; by simplify_eq.
Qed.

(** A named-pipe address where named pipes cannot be used: construction
    raises a [DockerException] that names what is missing, Windows or the
    pypiwin32 package, and leaves the trace as it was. *)
Theorem npipe_unavailable address ver timeout tls user_agent num_pools url
        log :
  tls_truthy tls && negb (str_truthy address) = false ->
  parse_host env address (IS_WINDOWS_PLATFORM env) (tls_truthy tls)
  = inr url ->
  String.prefix "http+unix://" url = false ->
  String.prefix "npipe://" url = true ->
  IS_WINDOWS_PLATFORM env && NpipeAdapter_imported env = false ->
  __init__ env address ver timeout tls user_agent num_pools log
  = (inl (DockerException
            (if IS_WINDOWS_PLATFORM env
             then "Install pypiwin32 package to enable npipe:// support"
             else "The npipe:// protocol is only supported on Windows")),
     log).
Proof.
  intros Htls Hparse Hunix Hnpipe Hno.
  unfold __init__, bind at 1.
  rewrite (init_transport_unfold _ _ _ _ _ url) by done.
  unfold select_transport. rewrite Hunix, Hnpipe.
  destruct (IS_WINDOWS_PLATFORM env); cbn [negb]; [|reflexivity].
  cbn [andb] in Hno. by rewrite Hno.
Qed.

(** A session over TCP, with TLS given as a boolean: it is addressed by the
    parsed base address; with TLS the [https://] URLs go through the SSL
    adapter, without it through the stock adapter; and the [http://] URLs go
    through the stock adapter in both cases. *)
Theorem tcp_session_adapters address timeout (tls : bool) user_agent
        num_pools url log :
  tls && negb (str_truthy address) = false ->
  parse_host env address (IS_WINDOWS_PLATFORM env) tls = inr url ->
  String.prefix "http+unix://" url = false ->
  String.prefix "npipe://" url = false ->
  exists self,
    init_transport env address timeout (TlsBool tls) user_agent num_pools log
    = (inr self, log)
    /\ base_url self = url
    /\ (forall rest,
           get_adapter self ("https://" +:+ rest)
           = Some (if tls then SSLAdapter num_pools else HTTPAdapter))
    /\ (forall rest,
           get_adapter self ("http://" +:+ rest) = Some HTTPAdapter).
Proof.
  intros Htls Hparse Hunix Hnpipe.
  rewrite (init_transport_unfold _ _ (TlsBool tls) _ _ url) by done.
  unfold select_transport. rewrite Hunix, Hnpipe. unfold ret.
  eexists. split; [reflexivity|]. split; [reflexivity|].
  split; intros rest.
  - apply (get_adapter_unique _ _ "https://").
    + destruct tls; [apply lookup_insert_eq|].
      cbn [adapters set_base_url set_adapters set_auth_configs set_headers
           set_timeout new_session].
      by rewrite lookup_insert_ne, lookup_singleton_eq.
    + by apply adapter_matches_here.
    + intros p a Hp Hm.
      unfold adapter_matches in Hm. rewrite lower_append in Hm.
      destruct tls;
        cbn [adapters set_base_url set_adapters mount set_custom_adapter
             set_auth_configs set_headers set_timeout new_session] in Hp;
        adapter_lookup_cases Hp p; by simplify_eq.
  - apply (get_adapter_unique _ _ "http://").
    + destruct tls;
        cbn [adapters set_base_url set_adapters mount set_custom_adapter
             set_auth_configs set_headers set_timeout new_session];
        by rewrite ?(lookup_insert_ne _ "https://" "http://"),
             lookup_insert_eq.
    + by apply adapter_matches_here.
    + intros p a Hp Hm.
      unfold adapter_matches in Hm. rewrite lower_append in Hm.
      destruct tls;
        cbn [adapters set_base_url set_adapters mount set_custom_adapter
             set_auth_configs set_headers set_timeout new_session] in Hp;
        adapter_lookup_cases Hp p; by simplify_eq.
Qed.

End TransportExtras.

(** ** What construction sends and raises *)

Section ConstructionExtras.

Context (env : Env).

Lemma network_calls_warning log msg :
  network_calls (log ++ [Warning msg]) = network_calls log.
Proof. unfold network_calls. rewrite omap_app. cbn. apply app_nil_r. Qed.

Lemma network_calls_call log method url :
  network_calls (log ++ [NetworkCall method url])
  = network_calls log ++ [(method, url)].
Proof. unfold network_calls. by rewrite omap_app. Qed.

(** Comparing with the minimum version sends nothing. *)
Lemma check_minimum_version_calls v self log :
  network_calls (snd (check_minimum_version env v self log))
  = network_calls log.
Proof.
  unfold check_minimum_version. destruct v; try reflexivity.
  unfold_monad. destruct (utils.version_lt _ _) as [e|[|]]; cbn [snd];
    [done | apply network_calls_warning | done].
Qed.

(** Asking the daemon for its version is one GET request to the
    unversioned endpoint, whatever comes back. *)
Lemma retrieve_server_version_calls self log path :
  str_format env (version_endpoint env) [] = inr path ->
  snd (_retrieve_server_version env self log)
  = log ++ [NetworkCall "GET" (base_url self +:+ path)].
Proof.
  intros Hfmt. unfold _retrieve_server_version, version, _get, send, _url.
  unfold_monad. cbn [string_args map]. rewrite Hfmt.
  destruct (request env _ _ _) as [e|resp]; [by destruct e|].
  destruct (_result_json resp) as [e|[| | | | |d]]; try done;
    [by destruct e | by destruct (d !! "ApiVersion")].
Qed.

(** Unless the version is [auto], in any letter case, construction sends
    nothing to the daemon, whether it succeeds or raises. *)
Theorem explicit_version_sends_nothing address ver timeout tls user_agent
        num_pools log :
  (forall v, ver = VersionStr v -> lower v <> "auto") ->
  network_calls
    (snd (__init__ env address ver timeout tls user_agent num_pools log))
  = network_calls log.
Proof.
  intros Hver. unfold __init__, bind at 1.
  destruct (init_transport _ _ _ _ _ _ _) as [[e|self1] log1] eqn:Ht;
    apply init_transport_trace in Ht; subst log1; [done|].
  unfold bind, resolve_version.
  destruct ver as [|v|ty]; unfold ret, raise; [| |done].
  - apply check_minimum_version_calls.
  - destruct (String.eqb_spec (lower v) "auto") as [Heq|_];
      [by destruct (Hver v eq_refl)|].
    apply check_minimum_version_calls.
Qed.

(** With the version [auto], a construction that gets as far as choosing
    its transport sends exactly one request, the GET of the unversioned
    version endpoint, whatever the daemon answers and whether construction
    then succeeds or raises. *)
Theorem auto_version_sends_one_get address v timeout tls user_agent
        num_pools log self1 log1 path :
  lower v = "auto" ->
  init_transport env address timeout tls user_agent num_pools log
  = (inr self1, log1) ->
  str_format env (version_endpoint env) [] = inr path ->
  network_calls
    (snd (__init__ env address (VersionStr v) timeout tls user_agent
                   num_pools log))
  = network_calls log ++ [("GET", base_url self1 +:+ path)].
Proof.
  intros Hauto Ht Hfmt. unfold __init__, bind at 1. rewrite Ht.
  apply init_transport_trace in Ht. subst log1.
  unfold bind, resolve_version. rewrite Hauto.
  change (String.eqb "auto" "auto") with true. cbn iota.
  pose proof (retrieve_server_version_calls self1 log path Hfmt) as Hcalls.
  destruct (_retrieve_server_version env self1 log) as [[e|v0] log2];
    cbn [snd] in Hcalls; subst log2.
  - apply network_calls_call.
  - rewrite check_minimum_version_calls. apply network_calls_call.
Qed.

(** A version that is neither a string nor [None]: once the transport is
    chosen, construction raises the [DockerException] that names the type
    found, and sends nothing. *)
Theorem version_of_wrong_type address ty timeout tls user_agent num_pools
        log self1 log1 :
  init_transport env address timeout tls user_agent num_pools log
  = (inr self1, log1) ->
  __init__ env address (VersionOther ty) timeout tls user_agent num_pools log
  = (inl (DockerException
            ("Version parameter must be a string or None. Found " +:+ ty)),
     log).
Proof.
  intros Ht. unfold __init__, bind at 1. rewrite Ht.
  apply init_transport_trace in Ht. by subst log1.
Qed.

(** The version of a session built without [auto]: the string given, as it
    is, or the default version when none is given.  [api_version] returns
    it, and the base address is the one the transport chose. *)
Theorem api_version_is_the_version_given address ver timeout tls user_agent
        num_pools log self1 log1 older :
  let chosen := match ver with
                | VersionStr v => v
                | _ => DEFAULT_DOCKER_API_VERSION env
                end in
  (ver = VersionNone \/ exists v, ver = VersionStr v /\ lower v <> "auto") ->
  init_transport env address timeout tls user_agent num_pools log
  = (inr self1, log1) ->
  utils.version_lt chosen (MINIMUM_DOCKER_API_VERSION env) = inr older ->
  exists self log',
    __init__ env address ver timeout tls user_agent num_pools log
    = (inr self, log')
    /\ api_version self = chosen
    /\ base_url self = base_url self1.
Proof.
  intros chosen Hver Ht Hlt.
  assert (Hres : resolve_version env ver self1 log1
                 = (inr (PStr chosen), log1)).
  { unfold resolve_version. destruct Hver as [->|(v & -> & Hv)];
      [reflexivity|].
    by destruct (String.eqb_spec (lower v) "auto"). }
  rewrite (init_after_resolution env _ _ _ _ _ _ _ _ _ _ _ _ Ht Hres Hlt).
  by eexists _, _.
Qed.

(** Whatever goes wrong when the server version is fetched, a missing key,
    a failed request, an HTTP error or an answer that is no dict, what
    [_retrieve_server_version] raises is a [DockerException]. *)
Theorem retrieve_server_version_raises_docker_exception self log e :
  fst (_retrieve_server_version env self log) = inl e ->
  exists msg, e = DockerException msg.
Proof.
  unfold _retrieve_server_version.
  destruct (version env self false log) as [[e0|v] log'].
  - destruct e0; intros [= <-]; by eexists.
  - destruct v as [| | | | |d]; try (intros [= <-]; by eexists).
    destruct (d !! "ApiVersion"); [done|]. intros [= <-]. by eexists.
Qed.

End ConstructionExtras.

(** ** Results of a failed request *)

Section ResultExtras.

Context (env : Env).

(** [_get_result_tty] on a response with an HTTP error status: the line
    stream of the versions before 1.6 and the raw stream of a terminal are
    returned as generators that raise the API error when first used; every
    other result raises it at once. *)
Theorem result_tty_http_error fuel self stream res is_tty msg c :
  http_error res = Some msg ->
  utils.compare_version "1.6" (_version self) = inr c ->
  _get_result_tty env fuel self stream res is_tty
  = if c <? 0 then Some (inr (OldStream (gen_raise (APIError msg))))
    else if is_tty && stream
         then Some (inr (RawStream (gen_raise (APIError msg))))
         else Some (inl (APIError msg)).
Proof.
  intros Herr Hc. unfold _get_result_tty. rewrite Hc.
  unfold _stream_raw_result_old, _stream_raw_result, _result_binary,
    _raise_for_status.
  rewrite Herr. by destruct (c <? 0), is_tty, stream.
Qed.

End ResultExtras.

(** ** The further statements at sample values *)

(** A 404 answer to a request for logs, read unstreamed at 1.30. *)
Lemma result_tty_http_error_witness :
  _get_result_tty sample_env 1 (sample_client "1.30") false
    (Response (Some "404 Not Found") [] "" (inr PNone) [] [] sample_socket
              sample_socket sample_socket)
    false
  = Some (inl (APIError "404 Not Found")).
Proof.
  apply (result_tty_http_error sample_env 1 (sample_client "1.30") false
           (Response (Some "404 Not Found") [] "" (inr PNone) [] []
                     sample_socket sample_socket sample_socket)
           false "404 Not Found" 1); reflexivity.
Defined.

(** The usual Unix socket. *)
Lemma unix_session_has_one_adapter_witness :
  exists self,
    init_transport sample_env (Some "http+unix:///var/run/docker.sock") 60
                   (TlsBool false) "docker-sdk-python" 25 []
    = (inr self, [])
    /\ base_url self = "http+docker://localunixsocket"
    /\ adapters self !! "http://" = None
    /\ adapters self !! "https://" = None
    /\ forall u,
        get_adapter self u
        = Some (UnixAdapter "http+unix:///var/run/docker.sock" 60 25).
Proof.
  apply (unix_session_has_one_adapter sample_env
           (Some "http+unix:///var/run/docker.sock") 60 (TlsBool false)
           "docker-sdk-python" 25 "http+unix:///var/run/docker.sock" []);
    reflexivity.
Defined.

(** The usual named pipe, on Windows. *)
Lemma npipe_session_adapters_witness :
  exists self,
    init_transport windows_env (Some "npipe:////./pipe/docker_engine") 60
                   (TlsBool false) "docker-sdk-python" 25 []
    = (inr self, [])
    /\ base_url self = "http+docker://localnpipe"
    /\ (forall rest,
           get_adapter self ("http+docker://" +:+ rest)
           = Some (NpipeAdapter "npipe:////./pipe/docker_engine" 60 25))
    /\ (forall rest,
           get_adapter self ("http://" +:+ rest) = Some HTTPAdapter).
Proof.
  apply (npipe_session_adapters windows_env
           (Some "npipe:////./pipe/docker_engine") 60 (TlsBool false)
           "docker-sdk-python" 25 "npipe:////./pipe/docker_engine" []);
    reflexivity.
Defined.

(** The usual named pipe, on Linux. *)
Lemma npipe_unavailable_witness :
  __init__ sample_env (Some "npipe:////./pipe/docker_engine") VersionNone 60
           (TlsBool false) "docker-sdk-python" 25 []
  = (inl (DockerException
            "The npipe:// protocol is only supported on Windows"), []).
Proof.
  apply (npipe_unavailable sample_env
           (Some "npipe:////./pipe/docker_engine") VersionNone 60
           (TlsBool false) "docker-sdk-python" 25
           "npipe:////./pipe/docker_engine" []); reflexivity.
Defined.

(** A TCP daemon with TLS. *)
Lemma tcp_session_adapters_witness :
  exists self,
    init_transport sample_env (Some "https://127.0.0.1:2376") 60
                   (TlsBool true) "docker-sdk-python" 25 []
    = (inr self, [])
    /\ base_url self = "https://127.0.0.1:2376"
    /\ (forall rest,
           get_adapter self ("https://" +:+ rest) = Some (SSLAdapter 25))
    /\ (forall rest,
           get_adapter self ("http://" +:+ rest) = Some HTTPAdapter).
Proof.
  apply (tcp_session_adapters sample_env (Some "https://127.0.0.1:2376") 60
           true "docker-sdk-python" 25 "https://127.0.0.1:2376" []);
    reflexivity.
Defined.

(** Construction with the version 1.30. *)
Lemma explicit_version_sends_nothing_witness :
  network_calls
    (snd (__init__ sample_env None (VersionStr "1.30") 60 (TlsBool false)
                   "docker-sdk-python" 25 []))
  = [].
Proof.
  apply (explicit_version_sends_nothing sample_env None (VersionStr "1.30")
           60 (TlsBool false) "docker-sdk-python" 25 []).
  intros v [= <-]. discriminate.
Defined.

(** Construction with the version AUTO against a daemon that cannot be
    reached. *)
Lemma auto_version_sends_one_get_witness :
  network_calls
    (snd (__init__ offline_env None (VersionStr "AUTO") 60 (TlsBool false)
                   "docker-sdk-python" 25 []))
  = [("GET", "http://127.0.0.1:2375/version")].
Proof.
  apply (auto_version_sends_one_get offline_env None "AUTO" 60
           (TlsBool false) "docker-sdk-python" 25 [] sample_session []
           "/version"); reflexivity.
Defined.

(** Construction with the number 1.3 as version. *)
Lemma version_of_wrong_type_witness :
  __init__ sample_env None (VersionOther "float") 60 (TlsBool false)
           "docker-sdk-python" 25 []
  = (inl (DockerException
            "Version parameter must be a string or None. Found float"), []).
Proof.
  apply (version_of_wrong_type sample_env None "float" 60 (TlsBool false)
           "docker-sdk-python" 25 [] sample_session []).
  reflexivity.
Defined.

(** Construction without a version. *)
Lemma api_version_is_the_version_given_witness :
  exists self log',
    __init__ sample_env None VersionNone 60 (TlsBool false)
             "docker-sdk-python" 25 []
    = (inr self, log')
    /\ api_version self = "1.26"
    /\ base_url self = "http://127.0.0.1:2375".
Proof.
  apply (api_version_is_the_version_given sample_env None VersionNone 60
           (TlsBool false) "docker-sdk-python" 25 [] sample_session []
           false).
  - by left.
  - reflexivity.
  - reflexivity.
Defined.

(** The daemon cannot be reached. *)
Lemma retrieve_server_version_raises_docker_exception_witness :
  exists msg,
    DockerException "Error while fetching server API version: error"
    = DockerException msg.
Proof.
  apply (retrieve_server_version_raises_docker_exception offline_env
           sample_session []).
  reflexivity.
Defined.

(** ** Frames followed by anything *)

Section LeadingFrames.

Context (env : Env).

Lemma encode_frames_length fs :
  (length fs <= length (encode_frames fs))%nat.
Proof.
  induction fs as [|[c p] fs IH]; [done|].
  rewrite encode_frames_cons, length_app, encode_frame_header, length_app,
    frame_header_length. simpl. lia.
Qed.

(** Well-formed frames at the start of a body are decoded whatever follows
    them: both decoders end, and what they yield starts with the payloads of
    those frames, all of them for the buffered decoder and the non-empty
    ones for the streaming decoder. *)
Theorem leading_frames_are_decoded fuel self resp fs rest :
  encodable fs ->
  http_error resp = None ->
  content resp = encode_frames fs ++ rest ->
  (length (content resp) < fuel)%nat ->
  (exists more,
      _multiplexed_buffer_helper fuel resp
      = Some (Gen (map snd fs ++ more) None))
  /\ (exists g socket,
         _multiplexed_response_stream_helper env fuel self resp
         = Some (g, socket)
         /\ (socket <> None ->
             exists more,
               yielded g
               = List.filter Py.truthy_bytes (map snd fs) ++ more)).
Proof.
  intros Hfs Hok Hbody Hfuel.
  pose proof (encode_frames_length fs) as Hlen.
  rewrite Hbody, length_app in Hfuel.
  split.
  - unfold _multiplexed_buffer_helper, _result_binary, _raise_for_status.
    rewrite Hok, Hbody.
    replace fuel with (length fs + (fuel - length fs))%nat by lia.
    pose proof (buffer_loop_frames_then fs (fuel - length fs) [] rest Hfs)
      as H.
    cbv zeta in H. cbn [app length] in H.
    change (Z.of_nat 0) with 0 in H. rewrite H. clear H.
    rewrite buffer_loop_frames_chunks.
    destruct (buffer_loop_frames_total (fuel - length fs)
                (encode_frames fs ++ rest)
                (Z.of_nat (length (encode_frames fs))))
      as ([frames r] & -> & Hr & _).
    + lia.
    + rewrite length_app. lia.
    + simpl in Hr. subst r. by eexists.
  - unfold _multiplexed_response_stream_helper.
    destruct (_get_raw_response_socket env self resp) as [e|socket].
    { eexists _, _. split; [reflexivity | done]. }
    rewrite Hbody.
    replace fuel with (length fs + (fuel - length fs))%nat by lia.
    rewrite stream_loop_frames_then by done.
    destruct (stream_loop_total (fuel - length fs) rest) as [g ->]; [lia|].
    eexists _, _. split; [reflexivity|]. intros _. by eexists.
Qed.

End LeadingFrames.

(** A frame followed by 9 bytes that are no frame. *)
Lemma leading_frames_are_decoded_witness :
  exists more,
    _multiplexed_buffer_helper 30
      (ok_response (encode_frames [(x01, [x61])]
                    ++ [xff; xff; xff; xff; x00; x00; x00; x05; x62]) PNone)
    = Some (Gen (map snd [(x01, [x61])] ++ more) None).
Proof.
  refine (proj1 (leading_frames_are_decoded sample_env 30
                   (sample_client "1.30") _ [(x01, [x61])]
                   [xff; xff; xff; xff; x00; x00; x00; x05; x62]
                   _ _ _ _)).
  - repeat constructor; simpl; lia.
  - reflexivity.
  - reflexivity.
  - simpl. lia.
Defined.

(** ** The defaults a session gives its requests *)

Section SessionDefaults.

Context (env : Env).

(** A construction that returns went through its three steps. *)
Lemma init_returns address ver timeout tls user_agent num_pools log self
      log' :
  __init__ env address ver timeout tls user_agent num_pools log
  = (inr self, log') ->
  exists self1 log1 v,
    init_transport env address timeout tls user_agent num_pools log
    = (inr self1, log1)
    /\ self = set_version v self1.
Proof.
  unfold __init__, bind at 1.
  destruct (init_transport _ _ _ _ _ _ _) as [[e|self1] log1]; [done|].
  unfold bind at 1.
  destruct (resolve_version _ _ _ _) as [[e|v] log2]; [done|].
  unfold check_minimum_version. destruct v; try done.
  unfold_monad. destruct (utils.version_lt _ _) as [e|[|]]; try done;
    intros [= <- _]; by eexists _, _, _.
Qed.

(** With TLS given as a boolean, the session that construction returns
    carries the timeout and the user agent it was given: a request without
    timeout gets the session's, a request with one keeps its own, and the
    headers of the session are the stock ones with [User-Agent] set. *)
Theorem session_defaults address ver seconds (tls : bool) user_agent
        num_pools log self log' :
  __init__ env address ver seconds (TlsBool tls) user_agent num_pools log
  = (inr self, log') ->
  (forall kw,
      kw_timeout (_set_request_timeout self kw)
      = Some (default seconds (kw_timeout kw))
      /\ kw_headers (_set_request_timeout self kw) = kw_headers kw
      /\ kw_data (_set_request_timeout self kw) = kw_data kw
      /\ kw_others (_set_request_timeout self kw) = kw_others kw)
  /\ headers self
     = <["User-Agent" := user_agent]> (default_headers env).
Proof.
  intros Hinit.
  destruct (init_returns _ _ _ _ _ _ _ _ _ Hinit)
    as (self1 & log1 & v & Ht & ->).
  assert (Hfields : timeout self1 = seconds
                    /\ headers self1
                       = <["User-Agent" := user_agent]>
                           (default_headers env)).
  { revert Ht. unfold init_transport, select_transport. unfold_monad.
    repeat match goal with
           | |- context [if ?b then _ else _] => destruct b
           | |- context [match ?x with _ => _ end] => destruct x
           end; intros [= <- _]; try done. }
  destruct Hfields as [Htime Hhead]. split; [|exact Hhead].
  intros kw. unfold _set_request_timeout. cbn [set_version timeout].
  destruct (kw_timeout kw) as [t|] eqn:E;
    cbn [kw_timeout kw_headers kw_data kw_others default];
    by rewrite ?E, ?Htime.
Qed.

End SessionDefaults.

(** The session built for version 1.30 with a timeout of 60 seconds. *)
Lemma session_defaults_witness :
  headers (set_version "1.30" sample_session)
  = <["User-Agent" := "docker-sdk-python"]> (default_headers sample_env).
Proof.
  refine (proj2 (session_defaults sample_env None (VersionStr "1.30") 60
                   false "docker-sdk-python" 25 []
                   (set_version "1.30" sample_session) [] _)).
  reflexivity.
Defined.
